(** * obscurer: URL obscuring for HTTP handlers

    A shallow embedding of the Go package [obscurer] (obscurer, in-memory
    store, response-writer decorator, handler and middleware) together with
    the properties of its specification.

    Go strings are byte sequences and are modelled by [string]; [[]byte]
    by [list Z] with every element in [0, 256); [int] status codes by [Z];
    [map]s by stdpp's [gmap]; a nil-able pointer by [option]. *)

From Stdlib Require Import ZArith Ascii String List Lia.
From stdpp Require Import gmap strings list fin_maps.

Local Open Scope string_scope.
Local Open Scope Z_scope.

(* ===================================================================== *)
(** * Bytes, strings and formatting helpers of the Go runtime             *)
(* ===================================================================== *)

Module GoString.

(** [[]byte(s)] *)
Fixpoint bytes (s : string) : list Z :=
  match s with
  | EmptyString => []
  | String c s' => Z.of_N (N_of_ascii c) :: bytes s'
  end.

(** [strings.TrimLeft(s, "/")]: every leading slash is removed. *)
Fixpoint TrimLeft_slash (s : string) : string :=
  match s with
  | String "/"%char s' => TrimLeft_slash s'
  | _ => s
  end.

Definition hexdigit (n : Z) : ascii :=
  if n <? 10 then ascii_of_N (Z.to_N (48 + n))
  else ascii_of_N (Z.to_N (87 + n)).

(** [fmt.Sprintf("%x", b)] for a byte slice: two lowercase hexadecimal
    digits per byte. *)
Fixpoint Sprintf_x (b : list Z) : string :=
  match b with
  | [] => EmptyString
  | x :: b' => String (hexdigit (x / 16)) (String (hexdigit (x mod 16)) (Sprintf_x b'))
  end.

(** [strings.HasPrefix(s, p)] *)
Fixpoint HasPrefix (s p : string) : bool :=
  match p, s with
  | EmptyString, _ => true
  | String a p', String b s' => if Ascii.eqb a b then HasPrefix s' p' else false
  | String _ _, EmptyString => false
  end.

(** Width in bytes of the first UTF-8 sequence of a non-empty string, as
    [utf8.DecodeRuneInString] reports it: an invalid or truncated
    encoding has width 1. *)
Definition rune_width (s : string) : nat :=
  let cont lo hi (c : ascii) := let n := Z.of_N (N_of_ascii c) in (lo <=? n) && (n <=? hi) in
  match s with
  | EmptyString => O
  | String c0 r =>
    let b0 := Z.of_N (N_of_ascii c0) in
    if b0 <? 0xC2 then 1%nat
    else if b0 <? 0xE0 then
      match r with
      | String c1 _ => if cont 0x80 0xBF c1 then 2%nat else 1%nat
      | _ => 1%nat
      end
    else if b0 <? 0xF0 then
      match r with
      | String c1 (String c2 _) =>
        let lo := if b0 =? 0xE0 then 0xA0 else 0x80 in
        let hi := if b0 =? 0xED then 0x9F else 0xBF in
        if cont lo hi c1 && cont 0x80 0xBF c2 then 3%nat else 1%nat
      | _ => 1%nat
      end
    else if b0 <? 0xF5 then
      match r with
      | String c1 (String c2 (String c3 _)) =>
        let lo := if b0 =? 0xF0 then 0x90 else 0x80 in
        let hi := if b0 =? 0xF4 then 0x8F else 0xBF in
        if cont lo hi c1 && cont 0x80 0xBF c2 && cont 0x80 0xBF c3 then 4%nat else 1%nat
      | _ => 1%nat
      end
    else 1%nat
  end.

(** [strings.ReplaceAll(s, old, new)] for a non-empty [old]: the
    non-overlapping occurrences of [old], leftmost first, are replaced.
    [skip] counts the bytes of a matched occurrence still to be dropped. *)
Fixpoint replace_from (skip : nat) (old new s : string) : string :=
  match s with
  | EmptyString => EmptyString
  | String c s' =>
    match skip with
    | S k => replace_from k old new s'
    | O =>
      if HasPrefix s old
      then new +:+ replace_from (String.length old - 1) old new s'
      else String c (replace_from O old new s')
    end
  end.

(** [strings.ReplaceAll(s, "", new)]: [new] is inserted at the start of
    the string and after each UTF-8 sequence. [skip] counts the bytes of
    the current sequence still to be copied. *)
Fixpoint insert_after_runes (skip : nat) (new s : string) : string :=
  match s with
  | EmptyString => EmptyString
  | String c s' =>
    match skip with
    | S (S k) => String c (insert_after_runes (S k) new s')
    | S O => String c (new +:+ insert_after_runes O new s')
    | O =>
      match rune_width s with
      | S (S k) => String c (insert_after_runes (S k) new s')
      | _ => String c (new +:+ insert_after_runes O new s')
      end
    end
  end.

Definition ReplaceAll (s old new : string) : string :=
  match old with
  | EmptyString => new +:+ insert_after_runes O new s
  | _ => replace_from O old new s
  end.

End GoString.

(* ===================================================================== *)
(** * crypto/md5                                                          *)
(* ===================================================================== *)

(** The MD5 digest of RFC 1321 and the [hash.Hash] value [md5.New()]
    returns. Words are 32-bit, kept in [Z] with the wrap-around written
    out. *)
Module MD5.

Definition w32 (x : Z) : Z := x mod 2 ^ 32.
Definition add32 (a b : Z) : Z := w32 (a + b).
Definition not32 (x : Z) : Z := Z.lxor x 0xffffffff.
Definition rotl32 (x c : Z) : Z :=
  w32 (Z.lor (Z.shiftl x c) (Z.shiftr x (32 - c))).

Definition K : list Z :=
  [ 0xd76aa478; 0xe8c7b756; 0x242070db; 0xc1bdceee;
    0xf57c0faf; 0x4787c62a; 0xa8304613; 0xfd469501;
    0x698098d8; 0x8b44f7af; 0xffff5bb1; 0x895cd7be;
    0x6b901122; 0xfd987193; 0xa679438e; 0x49b40821;
    0xf61e2562; 0xc040b340; 0x265e5a51; 0xe9b6c7aa;
    0xd62f105d; 0x02441453; 0xd8a1e681; 0xe7d3fbc8;
    0x21e1cde6; 0xc33707d6; 0xf4d50d87; 0x455a14ed;
    0xa9e3e905; 0xfcefa3f8; 0x676f02d9; 0x8d2a4c8a;
    0xfffa3942; 0x8771f681; 0x6d9d6122; 0xfde5380c;
    0xa4beea44; 0x4bdecfa9; 0xf6bb4b60; 0xbebfbc70;
    0x289b7ec6; 0xeaa127fa; 0xd4ef3085; 0x04881d05;
    0xd9d4d039; 0xe6db99e5; 0x1fa27cf8; 0xc4ac5665;
    0xf4292244; 0x432aff97; 0xab9423a7; 0xfc93a039;
    0x655b59c3; 0x8f0ccc92; 0xffeff47d; 0x85845dd1;
    0x6fa87e4f; 0xfe2ce6e0; 0xa3014314; 0x4e0811a1;
    0xf7537e82; 0xbd3af235; 0x2ad7d2bb; 0xeb86d391 ].

Definition shifts : list Z :=
  [ 7; 12; 17; 22; 7; 12; 17; 22; 7; 12; 17; 22; 7; 12; 17; 22;
    5; 9; 14; 20; 5; 9; 14; 20; 5; 9; 14; 20; 5; 9; 14; 20;
    4; 11; 16; 23; 4; 11; 16; 23; 4; 11; 16; 23; 4; 11; 16; 23;
    6; 10; 15; 21; 6; 10; 15; 21; 6; 10; 15; 21; 6; 10; 15; 21 ].

Definition nthZ (l : list Z) (i : Z) : Z := nth (Z.to_nat i) l 0.

(** Little-endian 32-bit words of a block. *)
Fixpoint words (b : list Z) : list Z :=
  match b with
  | b0 :: b1 :: b2 :: b3 :: r =>
    (b0 + 256 * b1 + 65536 * b2 + 16777216 * b3) :: words r
  | _ => []
  end.

Definition le_bytes32 (x : Z) : list Z :=
  [ x mod 256; (x / 256) mod 256; (x / 65536) mod 256; (x / 16777216) mod 256 ].

Record state := { sa : Z; sb : Z; sc : Z; sd : Z }.

Definition init : state :=
  {| sa := 0x67452301; sb := 0xefcdab89; sc := 0x98badcfe; sd := 0x10325476 |}.

Definition round (M : list Z) (st : state) (i : Z) : state :=
  let '(Build_state a b c d) := st in
  let '(f, g) :=
    if i <? 16 then (Z.lor (Z.land b c) (Z.land (not32 b) d), i)
    else if i <? 32 then (Z.lor (Z.land d b) (Z.land (not32 d) c), (5 * i + 1) mod 16)
    else if i <? 48 then (Z.lxor (Z.lxor b c) d, (3 * i + 5) mod 16)
    else (Z.lxor c (Z.lor b (not32 d)), (7 * i) mod 16) in
  let f' := add32 (add32 (add32 f a) (nthZ K i)) (nthZ M g) in
  {| sa := d; sb := add32 b (rotl32 f' (nthZ shifts i)); sc := b; sd := c |}.

Definition block (st : state) (b : list Z) : state :=
  let st' := fold_left (round (words b)) (map Z.of_nat (seq 0 64)) st in
  {| sa := add32 (sa st) (sa st'); sb := add32 (sb st) (sb st');
     sc := add32 (sc st) (sc st'); sd := add32 (sd st) (sd st') |}.

Fixpoint blocks (n : nat) (st : state) (data : list Z) : state :=
  match n with
  | O => st
  | S n' => blocks n' (block st (firstn 64 data)) (skipn 64 data)
  end.

(** The message followed by 0x80, zeros up to 56 modulo 64, and the
    bit length as 8 little-endian bytes. *)
Definition pad (msg : list Z) : list Z :=
  let len := Z.of_nat (length msg) in
  let zeros := Z.to_nat ((55 - len) mod 64) in
  let bits := 8 * len in
  msg ++ [0x80] ++ repeat 0 zeros
      ++ le_bytes32 (bits mod 2 ^ 32) ++ le_bytes32 ((bits / 2 ^ 32) mod 2 ^ 32).

(** [md5.Sum(msg)] as a byte list of length 16. *)
Definition checksum (msg : list Z) : list Z :=
  let p := pad msg in
  let st := blocks (length p / 64) init p in
  le_bytes32 (sa st) ++ le_bytes32 (sb st) ++ le_bytes32 (sc st) ++ le_bytes32 (sd st).

(** A [hash.Hash] for MD5: the digest is determined by the bytes
    written so far. *)
Record digest := { written : list Z }.

(** [md5.New()] *)
Definition New : digest := {| written := [] |}.

(** [d.Write(p)] *)
Definition Write (d : digest) (p : list Z) : digest :=
  {| written := written d ++ p |}.

(** [d.Sum(b)]: appends the current hash to [b] and returns the
    resulting slice; it does not change the underlying hash state and
    it does not hash [b]. *)
Definition Sum (d : digest) (b : list Z) : list Z := b ++ checksum (written d).

End MD5.

(* ===================================================================== *)
(** * net/url: the URL value                                              *)
(* ===================================================================== *)

(** [url.Userinfo] *)
Record Userinfo := {
  username : string;
  password : string;
  passwordSet : bool
}.

(** [url.URL]. [User] is a pointer in Go; copying a URL copies the
    pointer, and nothing in the package writes through it. *)
Record URL := {
  Scheme : string;
  Opaque : string;
  User : option Userinfo;
  Host : string;
  Path : string;
  RawPath : string;
  ForceQuery : bool;
  RawQuery : string;
  Fragment : string;
  RawFragment : string
}.

(** [u.Path = p] on a copy of [u]. *)
Definition set_Path (u : URL) (p : string) : URL :=
  {| Scheme := Scheme u; Opaque := Opaque u; User := User u; Host := Host u;
     Path := p; RawPath := RawPath u; ForceQuery := ForceQuery u;
     RawQuery := RawQuery u; Fragment := Fragment u; RawFragment := RawFragment u |}.

(** The zero URL, [url.URL{}]. *)
Definition URL_zero : URL :=
  {| Scheme := ""; Opaque := ""; User := None; Host := ""; Path := ""; RawPath := "";
     ForceQuery := false; RawQuery := ""; Fragment := ""; RawFragment := "" |}.

(** A URL that has a path only, as [url.Parse] returns for a plain path. *)
Definition URL_of_path (p : string) : URL := set_Path URL_zero p.

#[global] Instance Userinfo_eq_dec : EqDecision Userinfo.
Proof. solve_decision. Defined.

#[global] Instance URL_eq_dec : EqDecision URL.
Proof. solve_decision. Defined.

(** Go's [error]: [None] is [nil], [Some msg] an error with that text. *)
Definition error := option string.

(* ===================================================================== *)
(** * obscurer.go: Obscurer and md5Obscurer                               *)
(* ===================================================================== *)

(** [type Obscurer interface]: one method, [Obscure], from a URL
    pointer to a URL pointer. The receiver may carry state, and the
    result may be nil. *)
Class Obscurer (O : Type) := {
  Obscure : O -> URL -> O * option URL
}.

(** [md5Obscurer]: the [hash] field is a nil interface until first use. *)
Record md5Obscurer := { hash : option MD5.digest }.

(** [var Default = &md5Obscurer{}] *)
Definition Default : md5Obscurer := {| hash := None |}.

(** [func (o *md5Obscurer) Obscure] on values:
    the second component is [result], the copy of [*url] with the new
    path. *)
Definition md5Obscurer_Obscure (o : md5Obscurer) (url : URL) : md5Obscurer * URL :=
  let h := match hash o with
           | None => MD5.New
           | Some h => h
           end in
  let obscuredPathBytes := MD5.Sum h (GoString.bytes (GoString.TrimLeft_slash (Path url))) in
  let obscuredPath := GoString.Sprintf_x obscuredPathBytes in
  let result := set_Path url ("/" +:+ obscuredPath) in
  ({| hash := Some h |}, result).

#[global] Instance md5Obscurer_Obscurer : Obscurer md5Obscurer := {
  Obscure o u := let '(o', r) := md5Obscurer_Obscure o u in (o', Some r)
}.

(** The obscurer states a program can reach: [Default], and what
    [Obscure] leaves behind. No method writes to the hash. *)
Inductive md5Obscurer_reachable : md5Obscurer -> Prop :=
| reach_Default : md5Obscurer_reachable Default
| reach_Obscure o u :
    md5Obscurer_reachable o -> md5Obscurer_reachable (fst (md5Obscurer_Obscure o u)).

(** The default obscurer applied once: the obscured URL. *)
Definition obscure (u : URL) : URL := snd (md5Obscurer_Obscure Default u).

(** ** Obscure through pointers

    [Obscure] receives a pointer and returns the address of a fresh
    local ([result := *url; ...; return &result]). The heap maps
    addresses to URL values. *)
Definition loc := positive.

Definition md5Obscurer_Obscure_ptr (o : md5Obscurer) (heap : gmap loc URL) (p : loc)
  : option (md5Obscurer * gmap loc URL * loc) :=
  match heap !! p with
  | None => None                       (* nil or dangling: the dereference panics *)
  | Some url =>
    let '(o', result) := md5Obscurer_Obscure o url in
    let q := fresh (dom heap) in
    Some (o', <[q := result]> heap, q)
  end.

(* ===================================================================== *)
(** * store.go: Store and memoryStore                                     *)
(* ===================================================================== *)

(** What a call returns: normally, or by panicking. *)
Inductive outcome (A : Type) :=
| Returns (a : A)
| Panics.
Arguments Returns {A} a.
Arguments Panics {A}.

(** [type Store interface]. A method gets the store state and returns
    the new one; pointer arguments may be nil. Only the methods the
    handler calls are part of the class. *)
Class Store (S : Type) := {
  Put : S -> option URL -> option URL -> outcome (S * error);
  Get : S -> option URL -> outcome (option URL);
  Remove : S -> option URL -> outcome (S * error)
}.

(** [memoryStore]: a [sync.Map] from the obscured URL's [Path] to the
    original URL value. *)
Record memoryStore := { store : gmap string URL }.

(** [var DefaultStore = &memoryStore{}] *)
Definition DefaultStore : memoryStore := {| store := ∅ |}.

(** [func (s *memoryStore) Put] *)
Definition memoryStore_Put (s : memoryStore) (obscured original : URL) : memoryStore * error :=
  match store s !! Path obscured with
  | Some _ => (s, None)
  | None => ({| store := <[Path obscured := original]> (store s) |}, None)
  end.

(** [func (s *memoryStore) Get]:
    [Some u] stands for [(&u, true)], [None] for [(nil, false)]. *)
Definition memoryStore_Get (s : memoryStore) (obscured : URL) : option URL :=
  store s !! Path obscured.

(** [func (s *memoryStore) Remove] *)
Definition memoryStore_Remove (s : memoryStore) (obscured : URL) : memoryStore * error :=
  ({| store := delete (Path obscured) (store s) |}, None).

(** [func (s *memoryStore) Clear] *)
Definition memoryStore_Clear (s : memoryStore) : memoryStore * error :=
  ({| store := ∅ |}, None).

(** [func (s *memoryStore) Size] *)
Definition memoryStore_Size (s : memoryStore) : Z := Z.of_nat (size (store s)).

(** [func (s *memoryStore) Load].
    Go ranges over the map in an unspecified order; the list is the order
    of one iteration. *)
Fixpoint memoryStore_Load (s : memoryStore) (mappings : list (URL * URL)) : memoryStore * error :=
  match mappings with
  | [] => (s, None)
  | (obscured, unobscured) :: rest =>
    match memoryStore_Put s obscured unobscured with
    | (s', None) => memoryStore_Load s' rest
    | (s', Some err) => (s', Some err)
    end
  end.

(** A nil argument is dereferenced, which panics. *)
#[global] Instance memoryStore_Store : Store memoryStore := {
  Put s obscured original :=
    match obscured, original with
    | Some o, Some u => Returns (memoryStore_Put s o u)
    | _, _ => Panics
    end;
  Get s obscured :=
    match obscured with
    | Some o => Returns (memoryStore_Get s o)
    | None => Panics
    end;
  Remove s obscured :=
    match obscured with
    | Some o => Returns (memoryStore_Remove s o)
    | None => Panics
    end
}.

(* ===================================================================== *)
(** * net/http: headers, the transport's response writer, http.Error      *)
(* ===================================================================== *)

(** [http.Header]: values by canonical key. Every key the package
    uses is already canonical, so [CanonicalMIMEHeaderKey] is the
    identity on them. *)
Abbreviation Header := (gmap string (list string)).

(** [h.Get(key)]: the first value, or the empty string. *)
Definition Header_Get (h : Header) (key : string) : string :=
  match h !! key with
  | Some (v :: _) => v
  | _ => ""
  end.

(** [h.Set(key, value)] *)
Definition Header_Set (h : Header) (key value : string) : Header :=
  <[key := [value]]> h.

(** A method call the transport's writer received. *)
Inductive wcall :=
| WroteHeader (code : Z)
| Wrote (data : string).

(** The [http.ResponseWriter] handed to the package by the server: its
    header map, the calls it received so far (oldest first), and the
    error its [Write] reports ([None] unless the connection is broken). *)
Record ResponseWriter := {
  header : Header;
  calls : list wcall;
  write_error : error
}.

Definition new_ResponseWriter : ResponseWriter :=
  {| header := ∅; calls := []; write_error := None |}.

Definition with_header (w : ResponseWriter) (h : Header) : ResponseWriter :=
  {| header := h; calls := calls w; write_error := write_error w |}.

(** [w.WriteHeader(code)] on the transport's writer. *)
Definition W_WriteHeader (w : ResponseWriter) (code : Z) : ResponseWriter :=
  {| header := header w; calls := calls w ++ [WroteHeader code]; write_error := write_error w |}.

(** [w.Write(data)] on the transport's writer. *)
Definition W_Write (w : ResponseWriter) (data : string) : ResponseWriter * (Z * error) :=
  ({| header := header w; calls := calls w ++ [Wrote data]; write_error := write_error w |},
   match write_error w with
   | None => (Z.of_nat (String.length data), None)
   | Some e => (0, Some e)
   end).

(** The status writes among the calls. *)
Definition status_writes (w : ResponseWriter) : list Z :=
  omap (fun c => match c with WroteHeader code => Some code | Wrote _ => None end) (calls w).

(** What the client receives. The first status write counts, and a
    body write that comes before any status write sends 200, which is
    also what the server sends when the handler returns without any
    call. *)
Definition sent_status_of (cs : list wcall) : Z :=
  match cs with
  | [] => 200
  | WroteHeader code :: _ => code
  | Wrote _ :: _ => 200
  end.

Definition sent_status (w : ResponseWriter) : Z := sent_status_of (calls w).

Fixpoint sent_body_of (cs : list wcall) : string :=
  match cs with
  | [] => ""
  | WroteHeader _ :: cs' => sent_body_of cs'
  | Wrote d :: cs' => d +:+ sent_body_of cs'
  end.

Definition sent_body (w : ResponseWriter) : string := sent_body_of (calls w).

(* ===================================================================== *)
(** * response_writer.go: the capturing responseWriter                    *)
(* ===================================================================== *)

(** [responseWriter]: the embedded transport writer, the captured body
    and the captured status. [Header()] is promoted from the embedded
    writer, so the header map is the transport's own. *)
Record responseWriter := {
  rw_ResponseWriter : ResponseWriter;
  body : string;
  status : Z
}.

(** [&responseWriter{ResponseWriter: w}] *)
Definition new_responseWriter (w : ResponseWriter) : responseWriter :=
  {| rw_ResponseWriter := w; body := ""; status := 0 |}.

(** [rw.Header()] *)
Definition rw_Header (rw : responseWriter) : Header := header (rw_ResponseWriter rw).

Definition rw_with_header (rw : responseWriter) (h : Header) : responseWriter :=
  {| rw_ResponseWriter := with_header (rw_ResponseWriter rw) h;
     body := body rw; status := status rw |}.

(** [func (rw *responseWriter) Write(body []byte) (int, error)] *)
Definition Write (rw : responseWriter) (b : string) : responseWriter * (Z * error) :=
  ({| rw_ResponseWriter := rw_ResponseWriter rw; body := b; status := status rw |},
   (Z.of_nat (String.length b), None)).

(** [func (rw *responseWriter) WriteHeader(code int)] *)
Definition WriteHeader (rw : responseWriter) (code : Z) : responseWriter :=
  {| rw_ResponseWriter := rw_ResponseWriter rw; body := body rw; status := code |}.

(** [func (rw *responseWriter) Do() (written int, err error)] *)
Definition Do (rw : responseWriter) : responseWriter * (Z * error) :=
  let w1 := if decide (status rw = 0) then rw_ResponseWriter rw
            else W_WriteHeader (rw_ResponseWriter rw) (status rw) in
  if decide (body rw = "") then
    ({| rw_ResponseWriter := w1; body := body rw; status := status rw |}, (0, None))
  else
    let '(w2, res) := W_Write w1 (body rw) in
    ({| rw_ResponseWriter := w2; body := body rw; status := status rw |}, res).

(** [http.Error(rw, msg, code)] with the capturing writer as its
    target: two headers are set, the status goes through
    [rw.WriteHeader] and the message line through [rw.Write]. *)
Definition http_Error (rw : responseWriter) (msg : string) (code : Z) : responseWriter :=
  let h := Header_Set (rw_Header rw) "Content-Type" "text/plain; charset=utf-8" in
  let h := Header_Set h "X-Content-Type-Options" "nosniff" in
  let rw := rw_with_header rw h in
  let rw := WriteHeader rw code in
  fst (Write rw (msg +:+ String (ascii_of_N 10) "")).

(** ** The earlier responseWriter, with [autoFlush] and [Flush]

    The variant the middleware is written against: no body capture, and
    [Write] is the transport's own (promoted). *)
Module AutoFlush.

Record responseWriter := {
  rw_ResponseWriter : ResponseWriter;
  status : Z;
  autoFlush : bool
}.

(** [func (rw *responseWriter) Flush()] *)
Definition Flush (rw : responseWriter) : responseWriter :=
  {| rw_ResponseWriter := W_WriteHeader (rw_ResponseWriter rw) (status rw);
     status := status rw; autoFlush := autoFlush rw |}.

(** [func (rw *responseWriter) WriteHeader(code int)] *)
Definition WriteHeader (rw : responseWriter) (code : Z) : responseWriter :=
  let rw := {| rw_ResponseWriter := rw_ResponseWriter rw; status := code;
               autoFlush := autoFlush rw |} in
  if autoFlush rw then Flush rw else rw.

End AutoFlush.

(* ===================================================================== *)
(** * net/url: Parse and String                                           *)
(* ===================================================================== *)

(** The two functions of [net/url] the package calls: [url.Parse],
    which returns an error text or a URL, and the [String] method. The
    handler is defined over any such pair. *)
Class NetURL := {
  url_Parse : string -> string + URL;
  URL_String : URL -> string
}.

Definition isCTL (c : ascii) : bool :=
  let n := Z.of_N (N_of_ascii c) in (n <? 32) || (n =? 127).

(** [stringContainsCTLByte] of [net/url] *)
Fixpoint stringContainsCTLByte (s : string) : bool :=
  match s with
  | EmptyString => false
  | String c s' => isCTL c || stringContainsCTLByte s'
  end.

(** Letters, digits, [-], [_], [.], [~] and [/]: the bytes [net/url]
    neither interprets nor escapes in a path. *)
Definition plain_byte (c : ascii) : bool :=
  let n := Z.of_N (N_of_ascii c) in
  ((48 <=? n) && (n <=? 57)) || ((65 <=? n) && (n <=? 90)) || ((97 <=? n) && (n <=? 122))
  || (n =? 45) || (n =? 95) || (n =? 46) || (n =? 126) || (n =? 47).

Fixpoint all_plain (s : string) : bool :=
  match s with
  | EmptyString => true
  | String c s' => plain_byte c && all_plain s'
  end.

(** A reference that is only a path: plain bytes, not starting with two
    slashes. [url.Parse] returns the URL whose [Path] is the string and
    whose other fields are zero, and [String] of such a URL is the path. *)
Definition plain_path (s : string) : bool :=
  all_plain s && negb (GoString.HasPrefix s "//").

(** [net/url] on the inputs the examples of this file use: strings that
    hold a control byte, which [url.Parse] rejects, and plain paths. On
    other strings this instance does not follow [net/url]. *)
Definition ctl_error : string := "net/url: invalid control character in URL".

Definition plain_NetURL : NetURL := {|
  url_Parse s :=
    if stringContainsCTLByte s then inl ctl_error
    else inr (URL_of_path s);
  URL_String u := Path u
|}.

(* ===================================================================== *)
(** * handler.go: header parsers, errors, handler                         *)
(* ===================================================================== *)

(** [type headerParser func(string) string] *)
Definition headerParser := string -> string.

(** [defaultParseHeader] *)
Definition defaultParseHeader : headerParser := fun header => header.

Definition newline : ascii := ascii_of_N 10.

(** Length of the longest prefix [g] of [s] without a newline that is
    followed by [>], if there is one: where the greedy [.+] of the
    pattern ends when it is tried on [s]. [n] is the number of bytes
    before [s]. *)
Fixpoint last_gt (s : string) (n : nat) : option nat :=
  match s with
  | EmptyString => None
  | String c s' =>
    if Ascii.eqb c newline then None
    else match last_gt s' (S n) with
         | Some k => Some k
         | None => if Ascii.eqb c ">"%char then Some n else None
         end
  end.

(** [s[:n]] *)
Fixpoint take (n : nat) (s : string) : string :=
  match n, s with
  | S n', String c s' => String c (take n' s')
  | _, _ => EmptyString
  end.

(** [regexp.MustCompile("^<(.+)>.*").FindStringSubmatch(header)]: the
    first group when the pattern matches. [^] anchors at the start, [.]
    is any byte but a newline, [.+] is greedy and takes at least one. *)
Definition link_submatch (header : string) : option string :=
  match header with
  | String "<"%char rest =>
    match last_gt rest 0 with
    | Some (S k) => Some (take (S k) rest)
    | _ => None
    end
  | _ => None
  end.

(** [parseLinkHeader] *)
Definition parseLinkHeader : headerParser := fun header =>
  match link_submatch header with
  | None => ""
  | Some m => m
  end.

Definition ErrFailedRemoval : string := "obscurer: unable to remove URL form store".
Definition ErrLocationHeaderFailure : string := "obscurer: unable to obscure 'Location' header".
Definition ErrContentLocationHeaderFailure : string :=
  "obscurer: unable to obscure 'Content-Location' header".
Definition ErrLinkHeaderFailure : string := "obscurer: unable to obscure 'Link' header".

(** [http.Request], as far as the package reads it. *)
Record Request := {
  Method : string;
  r_URL : URL
}.

(** What a wrapped handler does with the writer it is given: it changes
    the header map, sets a status, writes a body, in any order and any
    number of times. *)
Inductive rwcall :=
| OnHeader (f : Header -> Header)
| CallWriteHeader (code : Z)
| CallWrite (data : string).

(** A wrapped [http.Handler] that returns normally and reaches the store
    through nothing but its response. *)
Definition Handler := Request -> list rwcall.

Definition rw_call (rw : responseWriter) (c : rwcall) : responseWriter :=
  match c with
  | OnHeader f => rw_with_header rw (f (rw_Header rw))
  | CallWriteHeader code => WriteHeader rw code
  | CallWrite data => fst (Write rw data)
  end.

(** [next.ServeHTTP(rw, r)] *)
Definition serve_wrapped (next : Handler) (rw : responseWriter) (r : Request) : responseWriter :=
  fold_left rw_call (next r) rw.

Section Handler.
Context {E : NetURL} {O S : Type} `{!Obscurer O} `{!Store S}.

(** [handler]: the wrapped handler and the obscurer and store it
    shares with its caller. *)
Record handler := {
  handler_handler : Handler;
  handler_obscurer : O;
  handler_store : S
}.

(** [NewHandler] *)
Definition NewHandler (o : O) (s : S) (h : Handler) : handler :=
  {| handler_handler := h; handler_obscurer := o; handler_store := s |}.

(** What a request works on after the wrapped handler returned. *)
Record pstate := {
  st_rw : responseWriter;
  st_obscurer : O;
  st_store : S
}.

(** [func (h *handler) obscureHeader(w, key, parse) error]. The
    result is the state the call leaves and what it returns; it
    panics where the store does. *)
Definition obscureHeader (st : pstate) (key : string) (parse : headerParser)
  : pstate * outcome error :=
  let headers := rw_Header (st_rw st) in
  let header := Header_Get headers key in
  let parsedHeader := parse header in
  if decide (header = "") then (st, Returns None)
  else
    match url_Parse parsedHeader with
    | inl err => (st, Returns (Some err))
    | inr url =>
      let '(o', obscured) := Obscure (st_obscurer st) url in
      let rw' :=
        match obscured with
        | Some ob =>
          let obscuredHeader := GoString.ReplaceAll header (URL_String url) (URL_String ob) in
          rw_with_header (st_rw st) (Header_Set headers key obscuredHeader)
        | None => st_rw st
        end in
      match Put (st_store st) obscured (Some url) with
      | Panics => ({| st_rw := rw'; st_obscurer := o'; st_store := st_store st |}, Panics)
      | Returns (s', err) =>
        ({| st_rw := rw'; st_obscurer := o'; st_store := s' |}, Returns err)
      end
    end.

(** [if err != nil { http.Error(rw, msg, 500) }] on the state a call
    left and the error it returned. *)
Definition on_error (err : error) (msg : string) (st : pstate) : pstate :=
  match err with
  | None => st
  | Some _ => {| st_rw := http_Error (st_rw st) msg 500;
                 st_obscurer := st_obscurer st; st_store := st_store st |}
  end.

(** [if err := h.obscureHeader(rw, key, parse); err != nil
     { http.Error(rw, msg, 500) }] *)
Definition obscure_or_500 (key : string) (parse : headerParser) (msg : string)
           (st : pstate) : pstate * outcome unit :=
  match obscureHeader st key parse with
  | (st', Panics) => (st', Panics)
  | (st', Returns err) => (on_error err msg st', Returns tt)
  end.

(** [if rw.status == 404 { if err := h.store.Remove(r.URL); err != nil
     { http.Error(rw, ErrFailedRemoval.Error(), 500) } }] *)
Definition remove_on_404 (r : Request) (st : pstate) : pstate * outcome unit :=
  if decide (status (st_rw st) = 404) then
    match Remove (st_store st) (Some (r_URL r)) with
    | Panics => (st, Panics)
    | Returns (s', err) =>
      (on_error err ErrFailedRemoval
         {| st_rw := st_rw st; st_obscurer := st_obscurer st; st_store := s' |}, Returns tt)
    end
  else (st, Returns tt).

(** Statements in sequence: a panic skips what follows. *)
Definition and_then (f g : pstate -> pstate * outcome unit) (st : pstate)
  : pstate * outcome unit :=
  match f st with
  | (st', Returns _) => g st'
  | (st', Panics) => (st', Panics)
  end.

(** The three header statements of [ServeHTTP], in program order. *)
Definition obscure_headers : pstate -> pstate * outcome unit :=
  and_then (obscure_or_500 "Location" defaultParseHeader ErrLocationHeaderFailure)
    (and_then (obscure_or_500 "Content-Location" defaultParseHeader
                              ErrContentLocationHeaderFailure)
              (obscure_or_500 "Link" parseLinkHeader ErrLinkHeaderFailure)).

(** The deferred function of [ServeHTTP]:
    [if _, err := rw.Do(); err != nil { http.Error(rw, err.Error(), 500) }] *)
Definition deferred_Do (rw : responseWriter) : responseWriter :=
  match Do rw with
  | (rw', (_, None)) => rw'
  | (rw', (_, Some err)) => http_Error rw' err 500
  end.

(** What [ServeHTTP] leaves behind: the transport's writer, the
    obscurer and the store, the request as the wrapped handler saw
    it, and whether the call panicked. *)
Record served := {
  out_w : ResponseWriter;
  out_obscurer : O;
  out_store : S;
  out_request : Request;
  out_panicked : bool
}.

(** [func (h *handler) ServeHTTP(w http.ResponseWriter, r *http.Request)] *)
Definition ServeHTTP (h : handler) (w : ResponseWriter) (r : Request) : served :=
  match Get (handler_store h) (Some (r_URL r)) with
  | Panics =>
    {| out_w := w; out_obscurer := handler_obscurer h; out_store := handler_store h;
       out_request := r; out_panicked := true |}
  | Returns found =>
    let r := match found with
             | Some unobscured => {| Method := Method r; r_URL := unobscured |}
             | None => r
             end in
    let rw := new_responseWriter w in
    let rw := serve_wrapped (handler_handler h) rw r in
    let st := {| st_rw := rw; st_obscurer := handler_obscurer h;
                 st_store := handler_store h |} in
    let '(st, res) := and_then (remove_on_404 r) obscure_headers st in
    let rw := deferred_Do (st_rw st) in
    {| out_w := rw_ResponseWriter rw; out_obscurer := st_obscurer st;
       out_store := st_store st; out_request := r;
       out_panicked := match res with Panics => true | Returns _ => false end |}
  end.

End Handler.

Arguments handler : clear implicits.
Arguments pstate : clear implicits.
Arguments served : clear implicits.

(* ===================================================================== *)
(** * middleware.go: the header-rewriting middleware                      *)
(* ===================================================================== *)

(** The middleware obscures the response headers only. It is written
    against the [AutoFlush] responseWriter: the wrapped handler gets the
    decorator, while [obscureHeader] and [http.Error] are given the
    transport's writer [w] itself, and the status is flushed by a
    deferred [rw.Flush()]. *)
Module Middleware.
Section Middleware.
Context {E : NetURL} {O S : Type} `{!Obscurer O} `{!Store S}.

Record middleware := {
  next : Handler;
  obscurer : O;
  mw_store : S
}.

(** [NewMiddleware] *)
Definition NewMiddleware (o : O) (s : S) (h : Handler) : middleware :=
  {| next := h; obscurer := o; mw_store := s |}.

(** The decorator (whose embedded writer is [w]), obscurer and store. *)
Record mstate := {
  m_rw : AutoFlush.responseWriter;
  m_obscurer : O;
  m_store : S
}.

Definition m_with_w (rw : AutoFlush.responseWriter) (w : ResponseWriter)
  : AutoFlush.responseWriter :=
  {| AutoFlush.rw_ResponseWriter := w; AutoFlush.status := AutoFlush.status rw;
     AutoFlush.autoFlush := AutoFlush.autoFlush rw |}.

(** A call of the wrapped handler on the decorator: [Header] and
    [Write] are the embedded writer's, [WriteHeader] the decorator's. *)
Definition rw_call (rw : AutoFlush.responseWriter) (c : rwcall) : AutoFlush.responseWriter :=
  let w := AutoFlush.rw_ResponseWriter rw in
  match c with
  | OnHeader f => m_with_w rw (with_header w (f (header w)))
  | CallWriteHeader code => AutoFlush.WriteHeader rw code
  | CallWrite data => m_with_w rw (fst (W_Write w data))
  end.

(** [http.Error(w, msg, code)] on the transport's writer. *)
Definition http_Error_w (w : ResponseWriter) (msg : string) (code : Z) : ResponseWriter :=
  let h := Header_Set (header w) "Content-Type" "text/plain; charset=utf-8" in
  let h := Header_Set h "X-Content-Type-Options" "nosniff" in
  let w := W_WriteHeader (with_header w h) code in
  fst (W_Write w (msg +:+ String newline "")).

(** [func (m *middleware) obscureHeader(w, key, parse) error] *)
Definition obscureHeader (st : mstate) (key : string) (parse : headerParser)
  : mstate * outcome error :=
  let w := AutoFlush.rw_ResponseWriter (m_rw st) in
  let h := header w in
  let header := Header_Get h key in
  let parsedHeader := parse header in
  if decide (header = "") then (st, Returns None)
  else
    match url_Parse parsedHeader with
    | inl err => (st, Returns (Some err))
    | inr url =>
      let '(o', obscured) := Obscure (m_obscurer st) url in
      let rw' :=
        match obscured with
        | Some ob =>
          let obscuredHeader := GoString.ReplaceAll header (URL_String url) (URL_String ob) in
          m_with_w (m_rw st) (with_header w (Header_Set h key obscuredHeader))
        | None => m_rw st
        end in
      match Put (m_store st) obscured (Some url) with
      | Panics => ({| m_rw := rw'; m_obscurer := o'; m_store := m_store st |}, Panics)
      | Returns (s', err) =>
        ({| m_rw := rw'; m_obscurer := o'; m_store := s' |}, Returns err)
      end
    end.

Definition obscure_or_500 (key : string) (parse : headerParser) (msg : string)
           (st : mstate) : mstate * outcome unit :=
  match obscureHeader st key parse with
  | (st', Panics) => (st', Panics)
  | (st', Returns None) => (st', Returns tt)
  | (st', Returns (Some _)) =>
    ({| m_rw := m_with_w (m_rw st')
                  (http_Error_w (AutoFlush.rw_ResponseWriter (m_rw st')) msg 500);
        m_obscurer := m_obscurer st'; m_store := m_store st' |}, Returns tt)
  end.

Definition and_then (f g : mstate -> mstate * outcome unit) (st : mstate)
  : mstate * outcome unit :=
  match f st with
  | (st', Returns _) => g st'
  | (st', Panics) => (st', Panics)
  end.

(** [func (m *middleware) ServeHTTP(w http.ResponseWriter, r *http.Request)]:
    the transport's writer, obscurer and store it leaves, and whether
    it panicked. The deferred [rw.Flush()] runs in either case. *)
Definition ServeHTTP (m : middleware) (w : ResponseWriter) (r : Request)
  : ResponseWriter * O * S * bool :=
  let rw := {| AutoFlush.rw_ResponseWriter := w; AutoFlush.status := 0;
               AutoFlush.autoFlush := false |} in
  let rw := fold_left rw_call (next m r) rw in
  let st := {| m_rw := rw; m_obscurer := obscurer m; m_store := mw_store m |} in
  let '(st, res) :=
    and_then (obscure_or_500 "Location" defaultParseHeader ErrLocationHeaderFailure)
      (and_then (obscure_or_500 "Content-Location" defaultParseHeader
                                ErrContentLocationHeaderFailure)
                (obscure_or_500 "Link" parseLinkHeader ErrLinkHeaderFailure)) st in
  let rw := AutoFlush.Flush (m_rw st) in
  (AutoFlush.rw_ResponseWriter rw, m_obscurer st, m_store st,
   match res with Panics => true | Returns _ => false end).

End Middleware.
End Middleware.

Arguments Middleware.middleware : clear implicits.
Arguments Middleware.mstate : clear implicits.

(* ===================================================================== *)
(** * The package's tests, run on the model                               *)
(* ===================================================================== *)

Definition form_feed : ascii := ascii_of_N 12.

(** The Go literal ["example.com\foo"]: [\f] is a form feed. *)
Definition invalid_url_text : string := "example.com" +:+ String form_feed "oo".

Definition GET (path : string) : Request := {| Method := "GET"; r_URL := URL_of_path path |}.

(** [http.NotFound]: [http.Error] with the 404 text. *)
Definition not_found : list rwcall :=
  [ OnHeader (fun h => Header_Set (Header_Set h "Content-Type" "text/plain; charset=utf-8")
                                  "X-Content-Type-Options" "nosniff");
    CallWriteHeader 404;
    CallWrite ("404 page not found" +:+ String newline "") ].

(** A mux with one route, [/this/is/the/way]; any other path gets
    [http.NotFound]. *)
Definition mux (route : list rwcall) : Handler := fun r =>
  if decide (Path (r_URL r) = "/this/is/the/way") then route else not_found.

(** A mux without routes: every request gets [http.NotFound]. *)
Definition no_routes : Handler := fun _ => not_found.

Definition serve_default (store0 : memoryStore) (h : Handler) (r : Request)
  : served md5Obscurer memoryStore :=
  @ServeHTTP plain_NetURL _ _ _ _ (NewHandler Default store0 h) new_ResponseWriter r.

(* ===================================================================== *)
(** * Notions the properties are stated with                              *)
(* ===================================================================== *)

(** What [Obscure] does to a path with its leading slashes removed. *)
Definition path_transform (trimmed : string) : string :=
  GoString.Sprintf_x (GoString.bytes trimmed ++ MD5.checksum []).

(** The path a hashing obscurer would produce: the hexadecimal MD5
    digest of the trimmed path behind a slash. *)
Definition md5_hex_path (p : string) : string :=
  "/" +:+ GoString.Sprintf_x (MD5.checksum (GoString.bytes (GoString.TrimLeft_slash p))).

Definition unhexdigit (c : ascii) : Z :=
  let n := Z.of_N (N_of_ascii c) in if n <? 58 then n - 48 else n - 87.

(** Decodes [n] bytes written as hexadecimal digit pairs. *)
Fixpoint unhex (n : nat) (s : string) : string :=
  match n, s with
  | S n', String a (String b s') =>
    String (ascii_of_N (Z.to_N (16 * unhexdigit a + unhexdigit b))) (unhex n' s')
  | _, _ => EmptyString
  end.

(** Reads the trimmed original path back from an obscured path: drop
    the slash, set the last 32 digits aside, decode the rest. *)
Definition reveal (obscuredPath : string) : string :=
  match obscuredPath with
  | EmptyString => EmptyString
  | String _ digits => unhex ((String.length digits - 32) / 2) digits
  end.

(** The header rewrite targets in program order, each with its parser
    and its failure message. *)
Definition rewrite_targets : list (string * headerParser * string) :=
  [ ("Location", defaultParseHeader, ErrLocationHeaderFailure);
    ("Content-Location", defaultParseHeader, ErrContentLocationHeaderFailure);
    ("Link", parseLinkHeader, ErrLinkHeaderFailure) ].

(** The header is absent, or present with an empty (first) value. *)
Definition absent_or_empty (h : Header) (key : string) : Prop :=
  h !! key = None \/ h !! key = Some [] \/ exists vs, h !! key = Some ("" :: vs).

(** The reading of "the first error wins and aborts the remaining header
    processing" for the first target: when [obscureHeader] fails for
    [Location], post-processing ends in the state the failure of
    [Location] leaves, with nothing done for the later headers. *)
Definition first_error_aborts {E : NetURL} {O S : Type} `{!Obscurer O} `{!Store S}
           (st : pstate O S) : Prop :=
  forall st1 e,
    obscureHeader st "Location" defaultParseHeader = (st1, Returns (Some e)) ->
    obscure_headers st = (on_error (Some e) ErrLocationHeaderFailure st1, Returns tt).

(** A captured response whose [Location] and [Link] are malformed and
    whose [Content-Location] is well-formed. *)
Definition two_malformed_headers : Header :=
  <["Location" := [invalid_url_text]]>
    (<["Content-Location" := ["/hey/der"]]>
       (<["Link" := ["<" +:+ (invalid_url_text +:+ ">; rel='next'")]]> ∅)).

Definition two_malformed_state : pstate md5Obscurer memoryStore :=
  {| st_rw := WriteHeader (new_responseWriter (with_header new_ResponseWriter two_malformed_headers)) 200;
     st_obscurer := Default; st_store := DefaultStore |}.

(** The states the processing of [two_malformed_state] goes through:
    after [Content-Location], and after [Link]. *)
Definition two_malformed_after_CL : pstate md5Obscurer memoryStore :=
  fst (@obscureHeader plain_NetURL _ _ _ _
         (on_error (Some ctl_error) ErrLocationHeaderFailure two_malformed_state)
         "Content-Location" defaultParseHeader).

Definition two_malformed_after_Link : pstate md5Obscurer memoryStore :=
  fst (@obscureHeader plain_NetURL _ _ _ _
         (on_error None ErrContentLocationHeaderFailure two_malformed_after_CL)
         "Link" parseLinkHeader).

(** The route of a wrapped handler that sets the two malformed headers
    and the well-formed one, and status 200. *)
Definition two_malformed_route : list rwcall :=
  [ OnHeader (fun _ => two_malformed_headers); CallWriteHeader 200 ].

(** The store after [Load] of the one mapping from [obscure(u)] to [u]. *)
Definition loaded (u : URL) : memoryStore :=
  fst (memoryStore_Load DefaultStore [(obscure u, u)]).

(** A route that answers 200 with a [Link] header of the given value. *)
Definition link_route (value : string) : list rwcall :=
  [ OnHeader (fun h => <["Link" := [value]]> h); CallWriteHeader 200 ].

(** The obscured form of the empty URL: the digest of the empty input
    behind a slash. *)
Definition empty_obscured : string := "/d41d8cd98f00b204e9800998ecf8427e".

(** The middleware over the default obscurer and store. *)
Definition middleware_default (h : Handler) (r : Request)
  : ResponseWriter * md5Obscurer * memoryStore * bool :=
  @Middleware.ServeHTTP plain_NetURL _ _ _ _
     (Middleware.NewMiddleware Default DefaultStore h) new_ResponseWriter r.

(** A wrapped handler that returns without touching its writer. *)
Definition silent : Handler := fun _ => [].

Definition no_newline (s : string) : Prop :=
  forall c, In c (list_ascii_of_string s) -> c <> newline.

(* ===================================================================== *)
(** * Further notions: the store, failing stores, the first handler        *)
(* ===================================================================== *)

(** The original of the first pair of a [Load] batch whose obscured URL
    has the path [p]. *)
Fixpoint first_with_path (p : string) (mappings : list (URL * URL)) : option URL :=
  match mappings with
  | [] => None
  | (obscured, original) :: rest =>
    if decide (Path obscured = p) then Some original else first_with_path p rest
  end.

(** A lowercase hexadecimal digit. *)
Definition is_lower_hex (c : ascii) : bool :=
  let n := Z.of_N (N_of_ascii c) in
  ((48 <=? n) && (n <=? 57)) || ((97 <=? n) && (n <=? 102)).

Fixpoint all_lower_hex (s : string) : bool :=
  match s with
  | EmptyString => true
  | String c s' => is_lower_hex c && all_lower_hex s'
  end.

(** The first line of a string holds no [>]. *)
Fixpoint no_gt_on_first_line (s : string) : Prop :=
  match s with
  | EmptyString => True
  | String c s' =>
    if Ascii.eqb c newline then True
    else c <> ">"%char /\ no_gt_on_first_line s'
  end.

(** The calls the transport's writer behind a state has received. *)
Definition calls_of {O S : Type} (st : pstate O S) : list wcall :=
  calls (rw_ResponseWriter (st_rw st)).

(** What [Do] sends for a captured status and body: the status if it
    is not 0, then the body if it is not empty. *)
Definition flushed (s : Z) (b : string) : list wcall :=
  ((if decide (s = 0) then [] else [WroteHeader s])
   ++ (if decide (b = "") then [] else [Wrote b]))%list.

(** The body and the status a script leaves captured: those of its
    last [Write] and its last [WriteHeader]. *)
Definition captured_body (script : list rwcall) (b0 : string) : string :=
  fold_left (fun b c => match c with CallWrite d => d | _ => b end) script b0.

Definition captured_status (script : list rwcall) (s0 : Z) : Z :=
  fold_left (fun s c => match c with CallWriteHeader code => code | _ => s end) script s0.

Definition is_CallWrite (c : rwcall) : bool :=
  match c with CallWrite _ => true | _ => false end.

(** The store double of the package's tests: [Get] finds what it is
    told to, [Put] and [Remove] return the errors they are told to and
    keep no mappings. *)
Record mockStore := {
  mock_Get : option URL;
  mock_Put : error;
  mock_Remove : error
}.

#[global] Instance mockStore_Store : Store mockStore := {
  Put s _ _ := Returns (s, mock_Put s);
  Get s _ := Returns (mock_Get s);
  Remove s _ := Returns (s, mock_Remove s)
}.

(** The request the wrapped handler is given: the request itself, with
    the URL the store returned put in its place if it returned one. *)
Definition deobscured (found : option URL) (r : Request) : Request :=
  match found with
  | Some unobscured => {| Method := Method r; r_URL := unobscured |}
  | None => r
  end.

(** The status codes a script sets, in order. *)
Definition header_codes (script : list rwcall) : list Z :=
  omap (fun c => match c with CallWriteHeader code => Some code | _ => None end) script.

(** ** handler.go, first version

    The handler before it rewrote headers: the decorator has
    [autoFlush] on, so that it is the transport's writer that gets every
    status at once, and a failed removal is reported on the transport's
    writer. The struct is the one of the later handler; the calls of the
    wrapped handler on the decorator are those of [Middleware.rw_call]. *)
Module HandlerV1.
Section HandlerV1.
Context {O S : Type} `{!Store S}.

(** [func (h *handler) ServeHTTP(w http.ResponseWriter, r *http.Request)]:
    the transport's writer and the store it leaves, the request the
    wrapped handler saw, and whether it panicked. *)
Definition ServeHTTP (h : handler O S) (w : ResponseWriter) (r : Request)
  : ResponseWriter * S * Request * bool :=
  match Get (handler_store h) (Some (r_URL r)) with
  | Panics => (w, handler_store h, r, true)
  | Returns found =>
    let r := deobscured found r in
    let rw := {| AutoFlush.rw_ResponseWriter := w; AutoFlush.status := 0;
                 AutoFlush.autoFlush := true |} in
    let rw := fold_left Middleware.rw_call (handler_handler h r) rw in
    let w := AutoFlush.rw_ResponseWriter rw in
    if decide (AutoFlush.status rw = 404) then
      match Remove (handler_store h) (Some (r_URL r)) with
      | Panics => (w, handler_store h, r, true)
      | Returns (s', None) => (w, s', r, false)
      | Returns (s', Some _) => (Middleware.http_Error_w w ErrFailedRemoval 500, s', r, false)
      end
    else (w, handler_store h, r, false)
  end.

End HandlerV1.
End HandlerV1.

(** The captured response of the put-error tests: a well-formed
    [Location], status 200, and a store whose [Put] fails. *)
Definition put_error_state : pstate md5Obscurer mockStore :=
  {| st_rw := WriteHeader
                (new_responseWriter
                   (with_header new_ResponseWriter (<["Location" := ["/hey/der"]]> ∅))) 200;
     st_obscurer := Default;
     st_store := {| mock_Get := None; mock_Put := Some "whoa"; mock_Remove := None |} |}.

Definition put_error_after_Location : pstate md5Obscurer mockStore :=
  fst (@obscureHeader plain_NetURL _ _ _ _ put_error_state "Location" defaultParseHeader).

(** A captured response with a well-formed [Location] over the default
    obscurer and an empty store. *)
Definition location_state : pstate md5Obscurer memoryStore :=
  {| st_rw := WriteHeader
                (new_responseWriter
                   (with_header new_ResponseWriter (<["Location" := ["/hey/der"]]> ∅))) 200;
     st_obscurer := Default; st_store := DefaultStore |}.

(** An obscurer that returns nil for every URL. *)
Inductive nilObscurer := NilObscurer.

#[global] Instance nilObscurer_Obscurer : Obscurer nilObscurer := {
  Obscure o _ := (o, None)
}.

(** A captured response with a well-formed [Location] over the nil
    obscurer and an empty in-memory store. *)
Definition nil_obscured_state : pstate nilObscurer memoryStore :=
  {| st_rw := WriteHeader
                (new_responseWriter
                   (with_header new_ResponseWriter (<["Location" := ["/hey/der"]]> ∅))) 200;
     st_obscurer := NilObscurer; st_store := DefaultStore |}.

(** The middleware's state after a wrapped handler that set a malformed
    [Location] and status 200. *)
Definition middleware_malformed_state : Middleware.mstate md5Obscurer memoryStore :=
  {| Middleware.m_rw :=
       {| AutoFlush.rw_ResponseWriter :=
            with_header new_ResponseWriter (<["Location" := [invalid_url_text]]> ∅);
          AutoFlush.status := 200; AutoFlush.autoFlush := false |};
     Middleware.m_obscurer := Default; Middleware.m_store := DefaultStore |}.

(* ===================================================================== *)
(** * Properties                                                          *)
(* ===================================================================== *)

Create HintDb obscurer.

(** Closed runs of the model are settled by evaluation. *)
Ltac evaluate := vm_compute; repeat split; reflexivity.

(** ** The model against known values *)

Example md5_empty :
  GoString.Sprintf_x (MD5.checksum []) = "d41d8cd98f00b204e9800998ecf8427e".
Proof. evaluate. Qed.

Example md5_a :
  GoString.Sprintf_x (MD5.checksum (GoString.bytes "a")) = "0cc175b9c0f1b6a831c399e269772661".
Proof. evaluate. Qed.

Example md5_abc :
  GoString.Sprintf_x (MD5.checksum (GoString.bytes "abc")) = "900150983cd24fb0d6963f7d28e17f72".
Proof. evaluate. Qed.

Example md5_message_digest :
  GoString.Sprintf_x (MD5.checksum (GoString.bytes "message digest"))
  = "f96b697d7cb7938d525a2f31aaf161d0".
Proof. evaluate. Qed.

Example md5_two_blocks :
  GoString.Sprintf_x (MD5.checksum (repeat 120 64)) = "c1bb4f81d892b2d57947682aeb252456".
Proof. evaluate. Qed.

Example md5_hey_der :
  GoString.Sprintf_x (MD5.checksum (GoString.bytes "hey/der")) = "80d2ccd6cc19877ff7c81e9455a2639b".
Proof. evaluate. Qed.

Example ReplaceAll_nonempty :
  GoString.ReplaceAll "</a>; rel='/a'" "/a" "/X" = "</X>; rel='/X'".
Proof. reflexivity. Qed.

Example ReplaceAll_overlap : GoString.ReplaceAll "aaa" "aa" "b" = "ba".
Proof. reflexivity. Qed.

Example ReplaceAll_empty_old : GoString.ReplaceAll "foo" "" "-" = "-f-o-o-".
Proof. reflexivity. Qed.

(** TestHandler_UnobscuredRequestURL *)
Example test_UnobscuredRequestURL :
  let res := serve_default DefaultStore (mux []) (GET "/this/is/the/way") in
  sent_status (out_w res) = 200 /\ memoryStore_Size (out_store res) = 0.
Proof. evaluate. Qed.

(** TestHandler_ObscuredRequestURL *)
Example test_ObscuredRequestURL :
  let u := URL_of_path "/this/is/the/way" in
  let s := fst (memoryStore_Load DefaultStore [(obscure u, u)]) in
  let res := serve_default s (mux []) {| Method := "GET"; r_URL := obscure u |} in
  sent_status (out_w res) = 200 /\ r_URL (out_request res) = u
  /\ memoryStore_Size (out_store res) = 1
  /\ memoryStore_Get (out_store res) (obscure u) = Some u.
Proof. evaluate. Qed.

(** TestHandler_404Request *)
Example test_404Request :
  let res := serve_default DefaultStore no_routes
               {| Method := "GET"; r_URL := obscure (URL_of_path "/this/is/not/the/way") |} in
  sent_status (out_w res) = 404
  /\ sent_body (out_w res) = "404 page not found" +:+ String newline ""
  /\ memoryStore_Size (out_store res) = 0.
Proof. evaluate. Qed.

(** TestHandler_LocationHeader *)
Example test_LocationHeader :
  let route := [ OnHeader (fun h => <["Location" := ["/hey/der"]]> h); CallWriteHeader 200 ] in
  let res := serve_default DefaultStore (mux route) (GET "/this/is/the/way") in
  sent_status (out_w res) = 200
  /\ Header_Get (header (out_w res)) "Location" = Path (obscure (URL_of_path "/hey/der"))
  /\ memoryStore_Size (out_store res) = 1.
Proof. evaluate. Qed.

(** TestHandler_LinkHeader *)
Example test_LinkHeader :
  let route := [ OnHeader (fun h => <["Link" := ["</hey/der>"]]> h); CallWriteHeader 200 ] in
  let res := serve_default DefaultStore (mux route) (GET "/this/is/the/way") in
  sent_status (out_w res) = 200
  /\ Header_Get (header (out_w res)) "Link"
     = "<" +:+ Path (obscure (URL_of_path "/hey/der")) +:+ ">"
  /\ memoryStore_Size (out_store res) = 1.
Proof. evaluate. Qed.

(** TestHandler_LinkHeader_InvalidURL *)
Example test_LinkHeader_InvalidURL :
  let route := [ OnHeader (fun h => <["Link" := ["<" +:+ invalid_url_text +:+ ">; rel='next'"]]> h);
                 CallWriteHeader 200 ] in
  let res := serve_default DefaultStore (mux route) (GET "/this/is/the/way") in
  sent_status (out_w res) = 500
  /\ sent_body (out_w res) = ErrLinkHeaderFailure +:+ String newline "".
Proof. evaluate. Qed.

(** The strings the runs above hand to [url.Parse] are plain paths or
    hold a control byte, and so are the obscured paths [String] renders. *)
Example parsed_inputs_are_plain :
  plain_path "" = true /\ plain_path "/hey/der" = true
  /\ plain_path (Path (obscure (URL_of_path "/hey/der"))) = true
  /\ plain_path (Path (obscure URL_zero)) = true
  /\ stringContainsCTLByte invalid_url_text = true.
Proof. evaluate. Qed.

(* ===================================================================== *)
(** * The obscurer                                                        *)
(* ===================================================================== *)

Lemma Sprintf_x_app (a b : list Z) :
  GoString.Sprintf_x (a ++ b) = GoString.Sprintf_x a +:+ GoString.Sprintf_x b.
Proof. induction a as [|x a IH]; simpl; [reflexivity | now rewrite IH]. Qed.

Lemma Sprintf_x_length (b : list Z) :
  String.length (GoString.Sprintf_x b) = (2 * length b)%nat.
Proof. induction b as [|x b IH]; simpl; [reflexivity | rewrite IH; lia]. Qed.

Lemma bytes_length (s : string) : length (GoString.bytes s) = String.length s.
Proof. induction s as [|c s IH]; simpl; [reflexivity | now rewrite IH]. Qed.

Lemma string_app_length (a b : string) :
  String.length (a +:+ b) = (String.length a + String.length b)%nat.
Proof. induction a as [|c a IH]; simpl; [reflexivity | now rewrite IH]. Qed.

(** The hash of a reachable obscurer was never written to. *)
Lemma md5Obscurer_reachable_hash (o : md5Obscurer) :
  md5Obscurer_reachable o -> hash o = None \/ hash o = Some MD5.New.
Proof.
  induction 1 as [|o u _ IH]; [left; reflexivity | right].
  unfold md5Obscurer_Obscure; simpl.
  destruct IH as [-> | ->]; reflexivity.
Qed.

(** In every reachable state [Obscure] returns what the default
    obscurer returns first. *)
Lemma md5Obscurer_Obscure_reachable (o : md5Obscurer) (u : URL) :
  md5Obscurer_reachable o -> snd (md5Obscurer_Obscure o u) = obscure u.
Proof.
  intros Hr. destruct (md5Obscurer_reachable_hash o Hr) as [H | H];
    unfold obscure, md5Obscurer_Obscure; simpl; rewrite H; reflexivity.
Qed.

(** The obscured path is the trimmed path in hexadecimal followed by the
    digest of the empty input. *)
Lemma obscure_Path (u : URL) :
  Path (obscure u)
  = "/" +:+ (GoString.Sprintf_x (GoString.bytes (GoString.TrimLeft_slash (Path u)))
             +:+ "d41d8cd98f00b204e9800998ecf8427e").
Proof.
  unfold obscure, md5Obscurer_Obscure, MD5.Sum; simpl.
  rewrite Sprintf_x_app. reflexivity.
Qed.

Lemma obscure_Path_length (u : URL) :
  String.length (Path (obscure u))
  = (33 + 2 * String.length (GoString.TrimLeft_slash (Path u)))%nat.
Proof.
  rewrite obscure_Path, !string_app_length, Sprintf_x_length, bytes_length.
  change (String.length "d41d8cd98f00b204e9800998ecf8427e") with 32%nat.
  change (String.length "/") with 1%nat. lia.
Qed.

Lemma unhex_hex_byte (c : ascii) :
  let x := Z.of_N (N_of_ascii c) in
  ascii_of_N (Z.to_N (16 * unhexdigit (GoString.hexdigit (x / 16))
                      + unhexdigit (GoString.hexdigit (x mod 16)))) = c.
Proof. destruct c as [[] [] [] [] [] [] [] []]; vm_compute; reflexivity. Qed.

Lemma unhex_Sprintf_x (t rest : string) :
  unhex (String.length t) (GoString.Sprintf_x (GoString.bytes t) +:+ rest) = t.
Proof.
  induction t as [|c t IH]; [destruct rest as [|? [|? ?]]; reflexivity|].
  simpl. rewrite IH. f_equal. apply unhex_hex_byte.
Qed.

(** The obscured path gives the original path away: decoding its
    digits returns the path that was obscured, leading slashes apart. *)
Lemma obscure_reveals (u : URL) :
  reveal (Path (obscure u)) = GoString.TrimLeft_slash (Path u).
Proof.
  rewrite obscure_Path.
  set (t := GoString.TrimLeft_slash (Path u)).
  change (reveal ("/" +:+ ?d)) with (unhex ((String.length d - 32) / 2) d).
  rewrite string_app_length, Sprintf_x_length, bytes_length.
  replace ((2 * String.length t + String.length "d41d8cd98f00b204e9800998ecf8427e" - 32) / 2)%nat
    with (String.length t).
  - apply unhex_Sprintf_x.
  - change (String.length "d41d8cd98f00b204e9800998ecf8427e") with 32%nat.
    replace (2 * String.length t + 32 - 32)%nat with (String.length t * 2)%nat by lia.
    symmetry. apply Nat.div_mul. lia.
Qed.

(** C2. The path [Obscure] returns for [/a] is not the slash followed by
    the hexadecimal MD5 digest of [a]: it is [a] itself in hexadecimal
    followed by the digest of the empty input. The rendering is not of a
    fixed width ([/a] and [/ab] give paths of lengths 35 and 37), and the
    original path is read back from it. *)
Theorem Obscure_is_not_md5_of_path :
  Path (obscure (URL_of_path "/a")) = "/61d41d8cd98f00b204e9800998ecf8427e"
  /\ md5_hex_path "/a" = "/0cc175b9c0f1b6a831c399e269772661"
  /\ Path (obscure (URL_of_path "/a")) <> md5_hex_path "/a"
  /\ String.length (Path (obscure (URL_of_path "/a"))) = 35%nat
  /\ String.length (Path (obscure (URL_of_path "/ab"))) = 37%nat
  /\ reveal (Path (obscure (URL_of_path "/ab"))) = "ab".
Proof.
  repeat split; try (vm_compute; reflexivity).
  vm_compute. discriminate.
Qed.

(** [Obscure] changes the path and nothing else. *)
Lemma md5Obscurer_Obscure_frame (o : md5Obscurer) (u : URL) :
  let r := snd (md5Obscurer_Obscure o u) in
  Scheme r = Scheme u /\ Opaque r = Opaque u /\ User r = User u /\ Host r = Host u
  /\ RawPath r = RawPath u /\ ForceQuery r = ForceQuery u /\ RawQuery r = RawQuery u
  /\ Fragment r = Fragment u /\ RawFragment r = RawFragment u.
Proof. repeat split. Qed.

Lemma obscure_Path_transform (u : URL) :
  Path (obscure u) = "/" +:+ path_transform (GoString.TrimLeft_slash (Path u)).
Proof. reflexivity. Qed.

(** C8. Called on a reachable obscurer with the address of a URL [u],
    [Obscure] returns the address of a new URL value: an address that
    was not allocated before, so that [u] and every other value of the
    heap are as they were. The new value has the scheme, host, query and
    fragment of [u] (and its opaque part, user and raw path); its path
    is a slash followed by a function of [u]'s path with the leading
    slashes removed. *)
Theorem Obscure_preserves_all_but_path
        (o : md5Obscurer) (heap : gmap loc URL) (p : loc) (u : URL) :
  md5Obscurer_reachable o ->
  heap !! p = Some u ->
  exists o' heap' q r,
    md5Obscurer_Obscure_ptr o heap p = Some (o', heap', q)
    /\ heap !! q = None /\ q <> p
    /\ heap' !! q = Some r
    /\ heap' !! p = Some u
    /\ (forall l, l <> q -> heap' !! l = heap !! l)
    /\ Scheme r = Scheme u /\ Host r = Host u
    /\ ForceQuery r = ForceQuery u /\ RawQuery r = RawQuery u
    /\ Fragment r = Fragment u /\ RawFragment r = RawFragment u
    /\ Opaque r = Opaque u /\ User r = User u /\ RawPath r = RawPath u
    /\ Path r = "/" +:+ path_transform (GoString.TrimLeft_slash (Path u))
    /\ md5Obscurer_reachable o'.
Proof.
  intros Hr Hp. unfold md5Obscurer_Obscure_ptr. rewrite Hp.
  pose proof (md5Obscurer_Obscure_reachable o u Hr) as Hsame.
  pose proof (reach_Obscure o u Hr) as Hr'.
  destruct (md5Obscurer_Obscure o u) as [o' r] eqn:Ho. simpl in Hsame, Hr'. subst r.
  set (q := fresh (dom heap)).
  assert (Hq : heap !! q = None).
  { apply not_elem_of_dom. apply is_fresh. }
  assert (Hne : q <> p) by (intros ->; congruence).
  exists o', (<[q := obscure u]> heap), q, (obscure u).
  split; [reflexivity|]. split; [exact Hq|]. split; [exact Hne|].
  split; [apply lookup_insert_eq|].
  split; [rewrite lookup_insert_ne; assumption|].
  split; [intros l Hl; apply lookup_insert_ne; congruence|].
  repeat split; assumption.
Qed.

Lemma Obscure_preserves_all_but_path_witness :
  let u := {| Scheme := "http"; Opaque := ""; User := None; Host := "www.example.com";
              Path := "/this/is/the/way/"; RawPath := ""; ForceQuery := false;
              RawQuery := "a=b"; Fragment := "top"; RawFragment := "" |} in
  exists o' heap' q r,
    md5Obscurer_Obscure_ptr Default {[ 1%positive := u ]} 1%positive = Some (o', heap', q)
    /\ heap' !! q = Some r /\ heap' !! 1%positive = Some u
    /\ Host r = "www.example.com"
    /\ Path r = "/" +:+ path_transform "this/is/the/way/".
Proof.
  intros u.
  destruct (Obscure_preserves_all_but_path Default {[ 1%positive := u ]} 1%positive u
              reach_Default (lookup_singleton_eq _ _))
    as (o' & heap' & q & r & H1 & _ & _ & H4 & H5 & _ & _ & H8 & _ & _ & _ & _ & _ & _ & _ & H16 & _).
  exists o', heap', q, r. repeat split; assumption.
Defined.

(** TestObscure *)
Example test_Obscure :
  let u := {| Scheme := "http"; Opaque := ""; User := None; Host := "www.example.com";
              Path := "/this/is/the/way/"; RawPath := ""; ForceQuery := false;
              RawQuery := ""; Fragment := ""; RawFragment := "" |} in
  let want := set_Path u ("/" +:+ GoString.Sprintf_x
                (MD5.Sum MD5.New (GoString.bytes (GoString.TrimLeft_slash (Path u))))) in
  snd (md5Obscurer_Obscure Default u) = want.
Proof. reflexivity. Qed.

(* ===================================================================== *)
(** * The in-memory store                                                 *)
(* ===================================================================== *)

Lemma memoryStore_Put_nil_error (s : memoryStore) (k v : URL) :
  snd (memoryStore_Put s k v) = None.
Proof. unfold memoryStore_Put. destruct (store s !! Path k); reflexivity. Qed.

(** What [Get] finds after a [Put]: the original already stored under
    the path, and the new one if there was none. *)
Lemma memoryStore_Get_Put (s : memoryStore) (k v : URL) :
  memoryStore_Get (fst (memoryStore_Put s k v)) k
  = Some (default v (memoryStore_Get s k)).
Proof.
  unfold memoryStore_Put, memoryStore_Get.
  destruct (store s !! Path k) eqn:Hk; simpl.
  - exact Hk.
  - apply lookup_insert_eq.
Qed.

(** [Put] under a path that is present changes nothing. *)
Lemma memoryStore_Put_present (s : memoryStore) (k v : URL) :
  is_Some (memoryStore_Get s k) -> memoryStore_Put s k v = (s, None).
Proof.
  unfold memoryStore_Put, memoryStore_Get. intros [x ->]. reflexivity.
Qed.

(** A second [Put] under the same key is a no-op, whatever it offers. *)
Lemma memoryStore_Put_Put (s : memoryStore) (k v1 v2 : URL) :
  let s1 := fst (memoryStore_Put s k v1) in
  memoryStore_Put s1 k v2 = (s1, None).
Proof.
  intros s1. apply memoryStore_Put_present.
  unfold s1. rewrite memoryStore_Get_Put. eexists; reflexivity.
Qed.

#[local] Hint Resolve memoryStore_Put_nil_error memoryStore_Get_Put memoryStore_Put_Put : obscurer.



(** C10. The store is keyed by the path of the obscured URL alone: for
    two obscured URLs with the same path, whatever their other
    components, [Put], [Get] and [Remove] do the same; a [Put] under
    one is found by a [Get] under the other, and a [Remove] under either
    deletes the mapping for both. *)
Theorem memoryStore_keyed_by_path (s : memoryStore) (k1 k2 original : URL) :
  Path k1 = Path k2 ->
  memoryStore_Put s k1 original = memoryStore_Put s k2 original
  /\ memoryStore_Get s k1 = memoryStore_Get s k2
  /\ memoryStore_Remove s k1 = memoryStore_Remove s k2
  /\ memoryStore_Get (fst (memoryStore_Put s k1 original)) k2
     = Some (default original (memoryStore_Get s k1))
  /\ memoryStore_Get (fst (memoryStore_Remove (fst (memoryStore_Put s k1 original)) k2)) k1 = None
  /\ memoryStore_Get (fst (memoryStore_Remove (fst (memoryStore_Put s k1 original)) k1)) k2 = None.
Proof.
  intros Hp.
  assert (HG : forall t, memoryStore_Get t k2 = memoryStore_Get t k1)
    by (intros t; unfold memoryStore_Get; now rewrite Hp).
  repeat split.
  - unfold memoryStore_Put. now rewrite Hp.
  - symmetry. apply HG.
  - unfold memoryStore_Remove. now rewrite Hp.
  - rewrite HG. apply memoryStore_Get_Put.
  - unfold memoryStore_Remove, memoryStore_Get; simpl. rewrite Hp. apply lookup_delete_eq.
  - unfold memoryStore_Remove, memoryStore_Get; simpl. rewrite Hp. apply lookup_delete_eq.
Qed.

Lemma memoryStore_keyed_by_path_witness :
  let k1 := {| Scheme := "http"; Opaque := ""; User := None; Host := "a.example";
               Path := "/78d41d8cd98f00b204e9800998ecf8427e"; RawPath := "";
               ForceQuery := false; RawQuery := ""; Fragment := ""; RawFragment := "" |} in
  let k2 := {| Scheme := "https"; Opaque := ""; User := None; Host := "b.example";
               Path := "/78d41d8cd98f00b204e9800998ecf8427e"; RawPath := "";
               ForceQuery := false; RawQuery := "page=2"; Fragment := "top";
               RawFragment := "" |} in
  let original := URL_of_path "/x" in
  k1 <> k2
  /\ memoryStore_Get (fst (memoryStore_Put DefaultStore k1 original)) k2 = Some original
  /\ memoryStore_Get
       (fst (memoryStore_Remove (fst (memoryStore_Put DefaultStore k1 original)) k2)) k1 = None.
Proof.
  intros k1 k2 original. split; [discriminate|].
  destruct (memoryStore_keyed_by_path DefaultStore k1 k2 original eq_refl)
    as (_ & _ & _ & H4 & H5 & _).
  split; [exact H4 | exact H5].
Defined.

(** [Put] under the path of a present mapping keeps that mapping, and
    [Get] goes on returning the earlier original. *)
Lemma Get_after_Put_obscured_present (s : memoryStore) (P Q : URL) :
  memoryStore_Get s (obscure P) = Some Q ->
  memoryStore_Put s (obscure P) P = (s, None)
  /\ memoryStore_Get (fst (memoryStore_Put s (obscure P) P)) (obscure P) = Some Q.
Proof.
  intros H. split.
  - apply memoryStore_Put_present. rewrite H. eexists; reflexivity.
  - rewrite memoryStore_Get_Put, H. reflexivity.
Qed.

(** C5, as the code has it. When the store holds no mapping for the
    path of [obscure(P)], [Put(obscure(P), P)] returns no error and the
    following [Get(obscure(P))] returns [P], found, equal in every
    component. *)
Theorem Get_after_Put_obscured (s : memoryStore) (P : URL) :
  memoryStore_Get s (obscure P) = None ->
  snd (memoryStore_Put s (obscure P) P) = None
  /\ memoryStore_Get (fst (memoryStore_Put s (obscure P) P)) (obscure P) = Some P.
Proof.
  intros H. split; [auto with obscurer|].
  rewrite memoryStore_Get_Put, H. reflexivity.
Qed.

Lemma Get_after_Put_obscured_witness :
  let P := {| Scheme := "http"; Opaque := ""; User := None; Host := "www.example.com";
              Path := "/this/is/the/way"; RawPath := ""; ForceQuery := false;
              RawQuery := "page=2"; Fragment := "top"; RawFragment := "" |} in
  snd (memoryStore_Put DefaultStore (obscure P) P) = None
  /\ memoryStore_Get (fst (memoryStore_Put DefaultStore (obscure P) P)) (obscure P) = Some P.
Proof.
  intros P. apply (Get_after_Put_obscured DefaultStore P). reflexivity.
Defined.

(** C5 fails as stated. Two URLs that differ in the host only are
    obscured to the same path; after both were put, the [Get] for the
    second returns the first. *)
Lemma Get_after_Put_obscured_counterexample :
  ~ (forall (s : memoryStore) (P : URL),
        snd (memoryStore_Put s (obscure P) P) = None ->
        memoryStore_Get (fst (memoryStore_Put s (obscure P) P)) (obscure P) = Some P).
Proof.
  intros H.
  pose (P1 := {| Scheme := "http"; Opaque := ""; User := None; Host := "a.example";
                 Path := "/x"; RawPath := ""; ForceQuery := false; RawQuery := "";
                 Fragment := ""; RawFragment := "" |}).
  pose (P2 := {| Scheme := "http"; Opaque := ""; User := None; Host := "b.example";
                 Path := "/x"; RawPath := ""; ForceQuery := false; RawQuery := "";
                 Fragment := ""; RawFragment := "" |}).
  specialize (H (fst (memoryStore_Put DefaultStore (obscure P1) P1)) P2
                (memoryStore_Put_nil_error _ _ _)).
  vm_compute in H. discriminate H.
Qed.

(* ===================================================================== *)
(** * The handler: header rewriting                                       *)
(* ===================================================================== *)

Lemma Header_Get_empty_iff (h : Header) (key : string) :
  absent_or_empty h key <-> Header_Get h key = "".
Proof.
  unfold absent_or_empty, Header_Get. split.
  - intros [-> | [-> | [vs ->]]]; reflexivity.
  - destruct (h !! key) as [[|v vs]|]; auto.
    intros ->. right; right. eexists; reflexivity.
Qed.

(** [obscureHeader] returns at once when [Get] yields the empty
    string. *)
Lemma obscureHeader_skip
      {E : NetURL} {O S : Type} `{!Obscurer O} `{!Store S}
      (st : pstate O S) (key : string) (parse : headerParser) :
  Header_Get (rw_Header (st_rw st)) key = "" ->
  obscureHeader st key parse = (st, Returns None).
Proof. intros Hget. unfold obscureHeader. rewrite Hget. reflexivity. Qed.

Lemma obscure_or_500_skip
      {E : NetURL} {O S : Type} `{!Obscurer O} `{!Store S}
      (st : pstate O S) (key : string) (parse : headerParser) (msg : string) :
  Header_Get (rw_Header (st_rw st)) key = "" ->
  obscure_or_500 key parse msg st = (st, Returns tt).
Proof.
  intros Hget. unfold obscure_or_500. rewrite (obscureHeader_skip st key parse Hget).
  reflexivity.
Qed.

(** C9. For each of the three rewrite targets, when the header is absent
    from the captured response or its value is empty, [obscureHeader]
    returns no error and leaves the state as it was: the header set, the
    captured status and body, the obscurer and the store. The handler
    goes on without sending an error. *)
Theorem obscureHeader_skips_absent_or_empty
        {E : NetURL} {O S : Type} `{!Obscurer O} `{!Store S}
        (st : pstate O S) (key : string) (parse : headerParser) (msg : string) :
  In (key, parse, msg) rewrite_targets ->
  absent_or_empty (rw_Header (st_rw st)) key ->
  obscureHeader st key parse = (st, Returns None)
  /\ obscure_or_500 key parse msg st = (st, Returns tt).
Proof.
  intros _ Habs. apply Header_Get_empty_iff in Habs. split.
  - apply obscureHeader_skip, Habs.
  - apply obscure_or_500_skip, Habs.
Qed.

Lemma obscureHeader_skips_absent_or_empty_witness :
  let st : pstate md5Obscurer memoryStore :=
    {| st_rw := new_responseWriter
                  (with_header new_ResponseWriter
                     (<["Link" := [""]]> (<["Location" := []]> ∅)));
       st_obscurer := Default; st_store := DefaultStore |} in
  @obscureHeader plain_NetURL _ _ _ _ st "Link" parseLinkHeader = (st, Returns None)
  /\ @obscureHeader plain_NetURL _ _ _ _ st "Location" defaultParseHeader = (st, Returns None)
  /\ @obscureHeader plain_NetURL _ _ _ _ st "Content-Location" defaultParseHeader
     = (st, Returns None).
Proof.
  intros st. split; [|split].
  - apply (@obscureHeader_skips_absent_or_empty plain_NetURL _ _ _ _ st
             "Link" parseLinkHeader ErrLinkHeaderFailure).
    + simpl. auto.
    + right; right. exists []. reflexivity.
  - apply (@obscureHeader_skips_absent_or_empty plain_NetURL _ _ _ _ st
             "Location" defaultParseHeader ErrLocationHeaderFailure).
    + simpl. auto.
    + right; left. reflexivity.
  - apply (@obscureHeader_skips_absent_or_empty plain_NetURL _ _ _ _ st
             "Content-Location" defaultParseHeader ErrContentLocationHeaderFailure).
    + simpl. auto.
    + left. reflexivity.
Defined.

(** [obscureHeader] writes to the header map only: the captured status
    and body are as before. *)
Lemma obscureHeader_status_body
      {E : NetURL} {O S : Type} `{!Obscurer O} `{!Store S}
      (st st' : pstate O S) (key : string) (parse : headerParser) (res : outcome error) :
  obscureHeader st key parse = (st', res) ->
  status (st_rw st') = status (st_rw st) /\ body (st_rw st') = body (st_rw st).
Proof.
  unfold obscureHeader.
  destruct (decide _); [intros [= <- _]; auto|].
  destruct (url_Parse _) as [err | url]; [intros [= <- _]; auto|].
  destruct (Obscure _ _) as [o' obscured].
  destruct (Put _ _ _) as [[s' err]|]; intros [= <- _];
    destruct obscured; simpl; auto.
Qed.

Lemma obscure_or_500_on_error
      {E : NetURL} {O S : Type} `{!Obscurer O} `{!Store S}
      (st st' : pstate O S) (key : string) (parse : headerParser) (msg : string) (e : error) :
  obscureHeader st key parse = (st', Returns e) ->
  obscure_or_500 key parse msg st = (on_error e msg st', Returns tt).
Proof.
  intros H. unfold obscure_or_500. rewrite H. reflexivity.
Qed.




(** What the client gets in that case: the message of [Link], the last
    header that failed, with [Content-Location] rewritten and its
    mapping stored in between. *)
Example two_malformed_headers_served :
  let res := serve_default DefaultStore (mux two_malformed_route) (GET "/this/is/the/way") in
  sent_status (out_w res) = 500
  /\ sent_body (out_w res) = ErrLinkHeaderFailure +:+ String newline ""
  /\ Header_Get (header (out_w res)) "Content-Location" = Path (obscure (URL_of_path "/hey/der"))
  /\ memoryStore_Get (out_store res) (obscure (URL_of_path "/hey/der"))
     = Some (URL_of_path "/hey/der")
  /\ out_panicked res = false.
Proof. evaluate. Qed.

(* ===================================================================== *)
(** * The handler: Link extraction                                        *)
(* ===================================================================== *)

Lemma last_gt_closing (g : string) (n : nat) :
  no_newline g -> last_gt (g +:+ ">") n = Some (n + String.length g)%nat.
Proof.
  revert n. induction g as [|c g IH]; intros n Hnl.
  - simpl. f_equal. lia.
  - assert (Hc : Ascii.eqb c newline = false).
    { apply Ascii.eqb_neq. apply Hnl. simpl. auto. }
    change (String c g +:+ ">") with (String c (g +:+ ">")).
    cbn [last_gt]. rewrite Hc, IH.
    + f_equal. simpl. lia.
    + intros d Hd. apply Hnl. simpl. auto.
Qed.

Lemma take_app (g t : string) : take (String.length g) (g +:+ t) = g.
Proof.
  induction g as [|c g IH]; [destruct t; reflexivity|].
  change (String c g +:+ t) with (String c (g +:+ t)). simpl. now rewrite IH.
Qed.

Lemma link_submatch_bracket (rest : string) :
  link_submatch (String "<" rest)
  = match last_gt rest 0 with
    | Some (S k) => Some (take (S k) rest)
    | _ => None
    end.
Proof. reflexivity. Qed.

(** The group of the Link pattern is greedy: of a value [<g>] it takes
    all of [g], closing brackets inside [g] included. *)
Lemma parseLinkHeader_greedy (g : string) :
  g <> "" -> no_newline g -> parseLinkHeader ("<" +:+ (g +:+ ">")) = g.
Proof.
  intros Hne Hnl. unfold parseLinkHeader.
  change ("<" +:+ (g +:+ ">")) with (String "<" (g +:+ ">")).
  rewrite link_submatch_bracket, (last_gt_closing g 0 Hnl).
  destruct g as [|c g]; [congruence|].
  change (0 + String.length (String c g))%nat with (S (String.length g)).
  exact (take_app (String c g) ">").
Qed.

(** A non-empty [Link] value the pattern does not match is no failure
    when [url.Parse] accepts the empty string, as [net/url] does:
    [obscureHeader] returns no error. *)
Lemma unmatched_Link_is_no_failure
      {E : NetURL} (st : pstate md5Obscurer memoryStore) (u0 : URL) :
  Header_Get (rw_Header (st_rw st)) "Link" <> "" ->
  link_submatch (Header_Get (rw_Header (st_rw st)) "Link") = None ->
  url_Parse "" = inr u0 ->
  snd (obscureHeader st "Link" parseLinkHeader) = Returns None.
Proof.
  intros Hne Hno Hparse. unfold obscureHeader, parseLinkHeader.
  rewrite Hno, Hparse. destruct (decide _) as [Heq|_]; [congruence|].
  simpl.
  match goal with
  | |- context [memoryStore_Put ?s ?k ?v] =>
    pose proof (memoryStore_Put_nil_error s k v) as Hnil;
    destruct (memoryStore_Put s k v) as [s' err]
  end.
  simpl in Hnil. subst err. reflexivity.
Qed.

(** C7. A [Link] value [foo] is not empty and the pattern does not match
    it; extraction yields the empty string, and that is not treated as a
    failure: the response keeps status 200 and carries no failure
    message, the [Link] header is rewritten with the obscured form of
    the empty URL inserted around every byte, and that form is put in
    the store. Nor does the pattern stop at the first closing bracket:
    of a value with two links it takes everything up to the last one. *)
Theorem unmatched_Link_is_rewritten_not_rejected :
  let res := serve_default DefaultStore (mux (link_route "foo")) (GET "/this/is/the/way") in
  link_submatch "foo" = None
  /\ parseLinkHeader "foo" = ""
  /\ sent_status (out_w res) = 200
  /\ sent_body (out_w res) = ""
  /\ Header_Get (header (out_w res)) "Link"
     = empty_obscured +:+ "f" +:+ empty_obscured +:+ "o" +:+ empty_obscured +:+ "o"
       +:+ empty_obscured
  /\ memoryStore_Get (out_store res) (URL_of_path empty_obscured) = Some URL_zero
  /\ parseLinkHeader "</a>; rel='prev', </b>; rel='next'" = "/a>; rel='prev', </b".
Proof. evaluate. Qed.

(* ===================================================================== *)
(** * The handler: eviction on 404                                        *)
(* ===================================================================== *)

(** Without rewrite targets in the response, header processing leaves
    the state alone. *)
Lemma obscure_headers_skip
      {E : NetURL} {O S : Type} `{!Obscurer O} `{!Store S} (st : pstate O S) :
  Header_Get (rw_Header (st_rw st)) "Location" = "" ->
  Header_Get (rw_Header (st_rw st)) "Content-Location" = "" ->
  Header_Get (rw_Header (st_rw st)) "Link" = "" ->
  obscure_headers st = (st, Returns tt).
Proof.
  intros H1 H2 H3. unfold obscure_headers, and_then.
  rewrite (obscure_or_500_skip st _ _ _ H1), (obscure_or_500_skip st _ _ _ H2).
  apply obscure_or_500_skip, H3.
Qed.

(** A request for an obscured URL whose mapping is in the store is
    deobscured first; [Remove] is then given the original URL. When the
    original's path differs from the obscured path, the mapping is
    still there after a 404. *)
Lemma ServeHTTP_404_keeps_mapping
      {E : NetURL} (o : md5Obscurer) (s : memoryStore) (h : Handler)
      (w : ResponseWriter) (r : Request) (u : URL) :
  memoryStore_Get s (r_URL r) = Some u ->
  Path u <> Path (r_URL r) ->
  let rw := serve_wrapped h (new_responseWriter w) {| Method := Method r; r_URL := u |} in
  status rw = 404 ->
  Header_Get (rw_Header rw) "Location" = "" ->
  Header_Get (rw_Header rw) "Content-Location" = "" ->
  Header_Get (rw_Header rw) "Link" = "" ->
  let res := ServeHTTP (NewHandler o s h) w r in
  r_URL (out_request res) = u
  /\ out_panicked res = false
  /\ memoryStore_Get (out_store res) (r_URL r) = Some u.
Proof.
  intros Hget Hne rw H404 HL HC HK res. subst res.
  unfold ServeHTTP. cbn [Get memoryStore_Store handler_store handler_handler
                         handler_obscurer NewHandler].
  rewrite Hget. fold rw.
  unfold and_then, remove_on_404. cbn [st_rw st_store st_obscurer].
  rewrite H404. destruct (decide (404 = 404)) as [_|Hn]; [|congruence].
  cbn [Remove memoryStore_Store memoryStore_Remove r_URL on_error].
  rewrite obscure_headers_skip by assumption.
  cbn [out_request out_panicked out_store st_store r_URL].
  split; [reflexivity|]. split; [reflexivity|].
  unfold memoryStore_Get in *. cbn [store].
  rewrite lookup_delete_ne by congruence. exact Hget.
Qed.

(** C1. The store maps the obscured URL of [/this/is/the/way] to the
    original, and the wrapped handler answers the request for the
    obscured URL with 404. [ServeHTTP] replaces the request URL by the
    original before the wrapped handler runs and then calls [Remove]
    with that URL, whose path is no key of the store: the response is
    404 and a following [Get] for the obscured URL still finds the
    mapping. *)
Theorem mapping_survives_404 :
  let original := URL_of_path "/this/is/the/way" in
  let res := serve_default (loaded original) no_routes
               {| Method := "GET"; r_URL := obscure original |} in
  memoryStore_Get (loaded original) (obscure original) = Some original
  /\ r_URL (out_request res) = original
  /\ sent_status (out_w res) = 404
  /\ memoryStore_Get (out_store res) (obscure original) = Some original
  /\ memoryStore_Size (out_store res) = 1.
Proof. evaluate. Qed.

(* ===================================================================== *)
(** * The response writers                                                *)
(* ===================================================================== *)

(** [WriteHeader] on the capturing writer records the status and sends
    nothing. *)
Lemma WriteHeader_captures (rw : responseWriter) (code : Z) :
  status (WriteHeader rw code) = code
  /\ rw_ResponseWriter (WriteHeader rw code) = rw_ResponseWriter rw.
Proof. split; reflexivity. Qed.

(** While the wrapped handler runs, the capturing writer passes no
    call on to the transport's writer. *)
Lemma serve_wrapped_sends_nothing (next : Handler) (rw : responseWriter) (r : Request) :
  calls (rw_ResponseWriter (serve_wrapped next rw r)) = calls (rw_ResponseWriter rw).
Proof.
  unfold serve_wrapped. generalize (next r) as script. intros script. revert rw.
  induction script as [|c script IH]; intros rw; [reflexivity|].
  cbn [fold_left]. rewrite IH. destruct c; reflexivity.
Qed.

(** [Do] on a writer whose status was never set adds no status write. *)
Lemma Do_without_status (rw : responseWriter) :
  status rw = 0 ->
  status_writes (rw_ResponseWriter (fst (Do rw))) = status_writes (rw_ResponseWriter rw).
Proof.
  intros H. unfold Do. rewrite H. simpl.
  destruct (decide (body rw = "")); [reflexivity|].
  unfold status_writes; simpl. rewrite omap_app. simpl. apply app_nil_r.
Qed.

(** With [autoFlush] off, [WriteHeader] on the earlier writer records
    the status and sends nothing. *)
Lemma AutoFlush_WriteHeader_captures (rw : AutoFlush.responseWriter) (code : Z) :
  AutoFlush.autoFlush rw = false ->
  AutoFlush.status (AutoFlush.WriteHeader rw code) = code
  /\ AutoFlush.rw_ResponseWriter (AutoFlush.WriteHeader rw code)
     = AutoFlush.rw_ResponseWriter rw.
Proof. intros H. unfold AutoFlush.WriteHeader. simpl. rewrite H. split; reflexivity. Qed.

(** [Flush] writes the status field whatever it holds. *)
Lemma AutoFlush_Flush_writes (rw : AutoFlush.responseWriter) :
  status_writes (AutoFlush.rw_ResponseWriter (AutoFlush.Flush rw))
  = (status_writes (AutoFlush.rw_ResponseWriter rw) ++ [AutoFlush.status rw])%list.
Proof. unfold status_writes; simpl. rewrite omap_app. reflexivity. Qed.

(** In the middleware the status writes the transport's writer has
    seen when the wrapped handler returns are those it had seen before:
    [WriteHeader] is captured, as [autoFlush] is off and stays off. *)
Lemma middleware_wrapped_writes_no_status (script : list rwcall) (rw : AutoFlush.responseWriter) :
  AutoFlush.autoFlush rw = false ->
  let rw' := fold_left Middleware.rw_call script rw in
  AutoFlush.autoFlush rw' = false
  /\ status_writes (AutoFlush.rw_ResponseWriter rw')
     = status_writes (AutoFlush.rw_ResponseWriter rw).
Proof.
  revert rw. induction script as [|c script IH]; intros rw Hoff; [split; [exact Hoff | reflexivity]|].
  cbn [fold_left].
  assert (Hstep : AutoFlush.autoFlush (Middleware.rw_call rw c) = false
                  /\ status_writes (AutoFlush.rw_ResponseWriter (Middleware.rw_call rw c))
                     = status_writes (AutoFlush.rw_ResponseWriter rw)).
  { destruct c as [f | code | data]; cbn [Middleware.rw_call].
    - split; [exact Hoff | reflexivity].
    - unfold AutoFlush.WriteHeader. cbn [AutoFlush.autoFlush]. rewrite Hoff.
      split; reflexivity.
    - split; [exact Hoff|]. unfold status_writes. cbn [Middleware.m_with_w
        AutoFlush.rw_ResponseWriter W_Write fst calls]. rewrite omap_app. apply app_nil_r. }
  destruct Hstep as [Hoff' Hsame].
  destruct (IH _ Hoff') as [IH1 IH2]. split; [exact IH1 | congruence].
Qed.

(** C4. In the middleware the wrapped handler returns without setting a
    status; the deferred [Flush] then calls [WriteHeader(0)] on the
    transport's writer, a status write. The later [Do] of the capturing
    writer skips the write when the status is 0. *)
Theorem Flush_writes_unset_status :
  let '(w, _, _, _) := middleware_default silent (GET "/this/is/the/way") in
  calls w = [WroteHeader 0] /\ status_writes w = [0]
  /\ status_writes (out_w (serve_default DefaultStore silent (GET "/this/is/the/way"))) = [].
Proof. evaluate. Qed.

(* ===================================================================== *)
(** * More on the in-memory store                                         *)
(* ===================================================================== *)

(** X1. [Remove] returns no error and the mapping of the path is gone, the
    mappings of other paths stay, and removing what is not there leaves
    the store as it is. *)
Theorem Remove_deletes_its_path_only (s : memoryStore) (k k' : URL) :
  snd (memoryStore_Remove s k) = None
  /\ memoryStore_Get (fst (memoryStore_Remove s k)) k = None
  /\ (Path k' <> Path k ->
      memoryStore_Get (fst (memoryStore_Remove s k)) k' = memoryStore_Get s k')
  /\ (memoryStore_Get s k = None -> fst (memoryStore_Remove s k) = s).
Proof.
  unfold memoryStore_Remove, memoryStore_Get. cbn [fst snd store].
  split; [reflexivity|]. split; [apply lookup_delete_eq|]. split.
  - intros Hne. apply lookup_delete_ne. congruence.
  - intros Hnone. destruct s as [m]. cbn [store] in *. f_equal. apply delete_id, Hnone.
Qed.

Lemma memoryStore_Get_Put_other (s : memoryStore) (k k' v : URL) :
  Path k' <> Path k ->
  memoryStore_Get (fst (memoryStore_Put s k v)) k' = memoryStore_Get s k'.
Proof.
  intros Hne. unfold memoryStore_Put, memoryStore_Get.
  destruct (store s !! Path k); cbn [fst store]; [reflexivity|].
  apply lookup_insert_ne. congruence.
Qed.

(** X2. [Put] touches the mapping of its own path only: what [Get] returns
    for a URL with another path is what it returned before, and the size
    grows by one at most. *)
Theorem Put_leaves_other_paths (s : memoryStore) (k k' v : URL) :
  Path k' <> Path k ->
  memoryStore_Get (fst (memoryStore_Put s k v)) k' = memoryStore_Get s k'
  /\ (is_Some (memoryStore_Get s k') ->
      is_Some (memoryStore_Get (fst (memoryStore_Put s k v)) k')).
Proof.
  intros Hne. rewrite (memoryStore_Get_Put_other s k k' v Hne). auto.
Qed.

Lemma Put_leaves_other_paths_witness :
  let s := fst (memoryStore_Put DefaultStore (URL_of_path "/a") (URL_of_path "/orig-a")) in
  memoryStore_Get (fst (memoryStore_Put s (URL_of_path "/b") (URL_of_path "/orig-b")))
                  (URL_of_path "/a")
  = memoryStore_Get s (URL_of_path "/a").
Proof.
  intros s.
  apply (proj1 (Put_leaves_other_paths s (URL_of_path "/b") (URL_of_path "/a")
                  (URL_of_path "/orig-b") ltac:(discriminate))).
Defined.

(** X3. [Size] counts the paths: a [Put] under a new path adds one and a
    [Put] under a present path none; a [Remove] of a present path takes
    one away and a [Remove] of an absent path none. *)
Theorem Size_counts_paths (s : memoryStore) (k v : URL) :
  memoryStore_Size (fst (memoryStore_Put s k v))
  = memoryStore_Size s + (if memoryStore_Get s k is Some _ then 0 else 1)
  /\ memoryStore_Size (fst (memoryStore_Remove s k))
     = memoryStore_Size s - (if memoryStore_Get s k is Some _ then 1 else 0)
  /\ 0 <= memoryStore_Size s.
Proof.
  unfold memoryStore_Size, memoryStore_Put, memoryStore_Remove, memoryStore_Get.
  cbn [fst store]. rewrite map_size_delete.
  destruct (store s !! Path k) as [x|] eqn:Hk; cbn [fst store].
  - split; [lia|]. split; [|lia].
    assert (size (store s) <> 0%nat); [|lia].
    intros H0. apply map_size_empty_inv in H0. rewrite H0, lookup_empty in Hk. discriminate.
  - rewrite map_size_insert_None by exact Hk. cbn [id]. lia.
Qed.


(** X5. Removing a mapping that a [Put] has just added under a new path
    gives the store back. *)
Theorem Remove_undoes_Put (s : memoryStore) (k v : URL) :
  memoryStore_Get s k = None ->
  fst (memoryStore_Remove (fst (memoryStore_Put s k v)) k) = s.
Proof.
  unfold memoryStore_Get, memoryStore_Put, memoryStore_Remove. intros Hk. rewrite Hk.
  destruct s as [m]. cbn [fst store] in *. f_equal. apply delete_insert_id, Hk.
Qed.

Lemma Remove_undoes_Put_witness :
  fst (memoryStore_Remove
         (fst (memoryStore_Put DefaultStore (obscure (URL_of_path "/x")) (URL_of_path "/x")))
         (obscure (URL_of_path "/x")))
  = DefaultStore.
Proof. apply (Remove_undoes_Put DefaultStore). reflexivity. Defined.

Lemma memoryStore_Load_Get (mappings : list (URL * URL)) (s : memoryStore) (k : URL) :
  snd (memoryStore_Load s mappings) = None
  /\ memoryStore_Get (fst (memoryStore_Load s mappings)) k
     = match memoryStore_Get s k with
       | Some v => Some v
       | None => first_with_path (Path k) mappings
       end.
Proof.
  revert s. induction mappings as [|[obscured original] rest IH]; intros s.
  - cbn. split; [reflexivity|]. destruct (memoryStore_Get s k); reflexivity.
  - cbn [memoryStore_Load first_with_path].
    pose proof (memoryStore_Put_nil_error s obscured original) as Hnil.
    destruct (memoryStore_Put s obscured original) as [s' err] eqn:HP.
    cbn [snd] in Hnil. subst err.
    destruct (IH s') as [IH1 IH2]. split; [exact IH1|]. rewrite IH2.
    assert (Hs' : s' = fst (memoryStore_Put s obscured original)) by (rewrite HP; reflexivity).
    subst s'. clear IH IH1 IH2 HP.
    destruct (decide (Path obscured = Path k)) as [Heq|Hne].
    + assert (HG : forall t, memoryStore_Get t k = memoryStore_Get t obscured)
        by (intros t; unfold memoryStore_Get; now rewrite Heq).
      rewrite !HG, memoryStore_Get_Put.
      destruct (memoryStore_Get s obscured); reflexivity.
    + rewrite memoryStore_Get_Put_other by congruence. reflexivity.
Qed.

(** X6. [Load] never returns an error. Afterwards a [Get] finds what it
    found before, if anything, and else the original of the first pair
    of the batch with that path; pairs later in the batch do not
    replace it. *)
Theorem Load_keeps_the_first_original (mappings : list (URL * URL)) (s : memoryStore) (k : URL) :
  snd (memoryStore_Load s mappings) = None
  /\ memoryStore_Get (fst (memoryStore_Load s mappings)) k
     = match memoryStore_Get s k with
       | Some v => Some v
       | None => first_with_path (Path k) mappings
       end
  /\ (forall obscured original, In (obscured, original) mappings ->
        is_Some (memoryStore_Get (fst (memoryStore_Load s mappings)) obscured)).
Proof.
  destruct (memoryStore_Load_Get mappings s k) as [H1 H2].
  split; [exact H1|]. split; [exact H2|].
  intros obscured original Hin.
  destruct (memoryStore_Load_Get mappings s obscured) as [_ ->].
  destruct (memoryStore_Get s obscured); [eexists; reflexivity|].
  clear H1 H2. induction mappings as [|[o v] rest IH]; [destruct Hin|].
  cbn [first_with_path]. destruct (decide (Path o = Path obscured)); [eexists; reflexivity|].
  destruct Hin as [Heq | Hin]; [injection Heq as -> ->; congruence | apply IH, Hin].
Qed.

(* ===================================================================== *)
(** * More on the obscurer                                                *)
(* ===================================================================== *)

(** X7. Two URLs are obscured to the same path exactly when their paths are
    the same once the leading slashes are removed: paths that differ
    elsewhere never collide, and scheme, host, query and fragment play
    no part. *)
Theorem obscured_paths_collide_iff (u1 u2 : URL) :
  Path (obscure u1) = Path (obscure u2)
  <-> GoString.TrimLeft_slash (Path u1) = GoString.TrimLeft_slash (Path u2).
Proof.
  split; intros H.
  - rewrite <- (obscure_reveals u1), <- (obscure_reveals u2), H. reflexivity.
  - rewrite !obscure_Path, H. reflexivity.
Qed.

Lemma hex_of_byte_is_lower_hex (c : ascii) :
  let x := Z.of_N (N_of_ascii c) in
  is_lower_hex (GoString.hexdigit (x / 16)) = true
  /\ is_lower_hex (GoString.hexdigit (x mod 16)) = true.
Proof. destruct c as [[] [] [] [] [] [] [] []]; vm_compute; split; reflexivity. Qed.

Lemma all_lower_hex_app (a b : string) :
  all_lower_hex (a +:+ b) = all_lower_hex a && all_lower_hex b.
Proof.
  induction a as [|c a IH]; [reflexivity|].
  change (String c a +:+ b) with (String c (a +:+ b)). cbn [all_lower_hex].
  rewrite IH. apply andb_assoc.
Qed.

Lemma Sprintf_x_bytes_lower_hex (t : string) :
  all_lower_hex (GoString.Sprintf_x (GoString.bytes t)) = true.
Proof.
  induction t as [|c t IH]; [reflexivity|].
  cbn [GoString.bytes GoString.Sprintf_x all_lower_hex].
  destruct (hex_of_byte_is_lower_hex c) as [-> ->]. exact IH.
Qed.

(** X8. The obscured path is a slash followed by lowercase hexadecimal
    digits, two for each byte of the trimmed path and 32 more; it is
    never empty and never the root path. *)
Theorem obscured_path_is_slash_and_hex (u : URL) :
  exists digits,
    Path (obscure u) = String "/" digits
    /\ all_lower_hex digits = true
    /\ String.length digits
       = (2 * String.length (GoString.TrimLeft_slash (Path u)) + 32)%nat.
Proof.
  exists (GoString.Sprintf_x (GoString.bytes (GoString.TrimLeft_slash (Path u)))
          +:+ "d41d8cd98f00b204e9800998ecf8427e").
  split; [apply obscure_Path|]. split.
  - rewrite all_lower_hex_app, Sprintf_x_bytes_lower_hex. reflexivity.
  - rewrite string_app_length, Sprintf_x_length, bytes_length. reflexivity.
Qed.

Lemma md5Obscurer_Obscure_ptr_fresh (o : md5Obscurer) (heap : gmap loc URL) (p : loc) (u : URL) :
  md5Obscurer_reachable o ->
  heap !! p = Some u ->
  exists o' q,
    md5Obscurer_Obscure_ptr o heap p = Some (o', <[q := obscure u]> heap, q)
    /\ heap !! q = None /\ md5Obscurer_reachable o'.
Proof.
  intros Hr Hp. unfold md5Obscurer_Obscure_ptr. rewrite Hp.
  pose proof (md5Obscurer_Obscure_reachable o u Hr) as Hsame.
  pose proof (reach_Obscure o u Hr) as Hr'.
  destruct (md5Obscurer_Obscure o u) as [o' r]. cbn [fst snd] in *. subst r.
  exists o', (fresh (dom heap)). split; [reflexivity|]. split; [|exact Hr'].
  apply not_elem_of_dom, is_fresh.
Qed.

(** X9. Obscuring the same URL twice through the same obscurer gives two
    values at two different new addresses, both equal to what the first
    call returned; the second call changes neither the input nor the
    first result. *)
Theorem Obscure_twice_gives_two_equal_values
        (o : md5Obscurer) (heap : gmap loc URL) (p : loc) (u : URL) :
  md5Obscurer_reachable o ->
  heap !! p = Some u ->
  exists o1 h1 q1 o2 h2 q2 r,
    md5Obscurer_Obscure_ptr o heap p = Some (o1, h1, q1)
    /\ md5Obscurer_Obscure_ptr o1 h1 p = Some (o2, h2, q2)
    /\ q1 <> q2 /\ q1 <> p /\ q2 <> p
    /\ h1 !! q1 = Some r /\ h2 !! q1 = Some r /\ h2 !! q2 = Some r
    /\ h2 !! p = Some u.
Proof.
  intros Hr Hp.
  destruct (md5Obscurer_Obscure_ptr_fresh o heap p u Hr Hp) as (o1 & q1 & H1 & Hq1 & Hr1).
  assert (Hne1 : q1 <> p) by (intros ->; congruence).
  assert (Hp1 : <[q1 := obscure u]> heap !! p = Some u)
    by (rewrite lookup_insert_ne; assumption).
  destruct (md5Obscurer_Obscure_ptr_fresh o1 _ p u Hr1 Hp1) as (o2 & q2 & H2 & Hq2 & _).
  assert (Hne2 : q2 <> p) by (intros ->; congruence).
  assert (Hne12 : q1 <> q2).
  { intros ->. rewrite lookup_insert_eq in Hq2. discriminate. }
  exists o1, (<[q1 := obscure u]> heap), q1, o2,
         (<[q2 := obscure u]> (<[q1 := obscure u]> heap)), q2, (obscure u).
  repeat split; try assumption.
  - apply lookup_insert_eq.
  - rewrite lookup_insert_ne by congruence. apply lookup_insert_eq.
  - apply lookup_insert_eq.
  - rewrite lookup_insert_ne by congruence. exact Hp1.
Qed.

Lemma Obscure_twice_gives_two_equal_values_witness :
  exists o1 h1 q1 o2 h2 q2 r,
    md5Obscurer_Obscure_ptr Default {[ 1%positive := URL_of_path "/x" ]} 1%positive
    = Some (o1, h1, q1)
    /\ md5Obscurer_Obscure_ptr o1 h1 1%positive = Some (o2, h2, q2)
    /\ q1 <> q2 /\ h2 !! q1 = Some r /\ h2 !! q2 = Some r.
Proof.
  destruct (Obscure_twice_gives_two_equal_values Default {[ 1%positive := URL_of_path "/x" ]}
              1%positive (URL_of_path "/x") reach_Default (lookup_singleton_eq _ _))
    as (o1 & h1 & q1 & o2 & h2 & q2 & r & H1 & H2 & H3 & _ & _ & _ & H7 & H8 & _).
  exists o1, h1, q1, o2, h2, q2, r. repeat split; assumption.
Defined.

(* ===================================================================== *)
(** * More on the Link parser                                             *)
(* ===================================================================== *)

Lemma last_gt_None (s : string) (n : nat) :
  last_gt s n = None -> no_gt_on_first_line s.
Proof.
  revert n. induction s as [|c s IH]; intros n; [intros _; exact I|].
  cbn [last_gt no_gt_on_first_line].
  destruct (Ascii.eqb c newline); [intros _; exact I|].
  destruct (last_gt s (S n)) eqn:Hs; [intros H; discriminate H|].
  destruct (Ascii.eqb c ">") eqn:Hc; [intros H; discriminate H|]. intros _.
  split; [apply Ascii.eqb_neq, Hc | apply (IH (S n)), Hs].
Qed.

Lemma last_gt_shape (s : string) (n k : nat) :
  last_gt s n = Some k ->
  exists g rest,
    s = g +:+ String ">" rest /\ k = (n + String.length g)%nat
    /\ no_newline g /\ no_gt_on_first_line rest.
Proof.
  revert n k. induction s as [|c s IH]; intros n k H; [discriminate|].
  cbn [last_gt] in H. destruct (Ascii.eqb c newline) eqn:Hc; [discriminate|].
  destruct (last_gt s (S n)) as [k'|] eqn:Hs.
  - injection H as <-. destruct (IH _ _ Hs) as (g & rest & -> & -> & Hnl & Hgt).
    exists (String c g), rest. split; [reflexivity|]. split; [cbn; lia|]. split; [|exact Hgt].
    intros d [<- | Hd]; [apply Ascii.eqb_neq, Hc | apply Hnl, Hd].
  - destruct (Ascii.eqb c ">") eqn:Hgt; [|discriminate]. injection H as <-.
    apply Ascii.eqb_eq in Hgt. subst c.
    exists "", s. split; [reflexivity|]. split; [cbn; lia|]. split; [intros d []|].
    apply (last_gt_None s (S n)), Hs.
Qed.

(** X10. What [parseLinkHeader] returns, when it is not the empty string,
    stood in the header between the leading [<] and a [>]: it holds no
    newline, and no further [>] follows on that line, so that it runs up
    to the last one. *)
Theorem parseLinkHeader_shape (header m : string) :
  parseLinkHeader header = m ->
  m <> "" ->
  exists rest,
    header = String "<" (m +:+ String ">" rest)
    /\ no_newline m /\ no_gt_on_first_line rest.
Proof.
  unfold parseLinkHeader. destruct (link_submatch header) as [m'|] eqn:Hm; [|congruence].
  intros -> Hne.
  destruct header as [|c rest0]; [discriminate|].
  destruct (Ascii.ascii_dec c "<") as [->|Hc].
  - rewrite link_submatch_bracket in Hm.
    destruct (last_gt rest0 0) as [[|k]|] eqn:Hl; try discriminate.
    destruct (last_gt_shape _ _ _ Hl) as (g & rest & -> & Hk & Hnl & Hgt).
    cbn [Nat.add] in Hk. rewrite Hk, take_app in Hm. injection Hm as <-.
    exists rest. auto.
  - exfalso. destruct c as [[] [] [] [] [] [] [] []];
      try (cbn in Hm; discriminate Hm). apply Hc. reflexivity.
Qed.

Lemma parseLinkHeader_shape_witness :
  exists rest,
    "</hey/der>; rel='next'" = String "<" ("/hey/der" +:+ String ">" rest)
    /\ no_newline "/hey/der" /\ no_gt_on_first_line rest.
Proof.
  apply (parseLinkHeader_shape "</hey/der>; rel='next'" "/hey/der");
    [reflexivity | discriminate].
Defined.

(* ===================================================================== *)
(** * More on the handler: what reaches the transport                     *)
(* ===================================================================== *)

Lemma http_Error_calls (rw : responseWriter) (msg : string) (code : Z) :
  calls (rw_ResponseWriter (http_Error rw msg code)) = calls (rw_ResponseWriter rw).
Proof. reflexivity. Qed.

Lemma http_Error_status_body (rw : responseWriter) (msg : string) (code : Z) :
  status (http_Error rw msg code) = code
  /\ body (http_Error rw msg code) = msg +:+ String newline "".
Proof. split; reflexivity. Qed.

Lemma on_error_calls {O S : Type} (err : error) (msg : string) (st : pstate O S) :
  calls_of (on_error err msg st) = calls_of st.
Proof. destruct err; reflexivity. Qed.

Lemma obscureHeader_calls
      {E : NetURL} {O S : Type} `{!Obscurer O} `{!Store S}
      (st st' : pstate O S) (key : string) (parse : headerParser) (res : outcome error) :
  obscureHeader st key parse = (st', res) -> calls_of st' = calls_of st.
Proof.
  unfold obscureHeader.
  destruct (decide _); [intros [= <- _]; reflexivity|].
  destruct (url_Parse _) as [err | url]; [intros [= <- _]; reflexivity|].
  destruct (Obscure _ _) as [o' obscured].
  destruct (Put _ _ _) as [[s' err]|]; intros [= <- _];
    destruct obscured; reflexivity.
Qed.

Lemma obscure_or_500_calls
      {E : NetURL} {O S : Type} `{!Obscurer O} `{!Store S}
      (st : pstate O S) (key : string) (parse : headerParser) (msg : string) :
  calls_of (fst (obscure_or_500 key parse msg st)) = calls_of st.
Proof.
  unfold obscure_or_500.
  destruct (obscureHeader st key parse) as [st' res] eqn:H.
  apply obscureHeader_calls in H.
  destruct res as [err|]; cbn [fst]; [rewrite on_error_calls|]; exact H.
Qed.

Lemma and_then_calls
      {O S : Type} (f g : pstate O S -> pstate O S * outcome unit) :
  (forall st, calls_of (fst (f st)) = calls_of st) ->
  (forall st, calls_of (fst (g st)) = calls_of st) ->
  forall st, calls_of (fst (and_then f g st)) = calls_of st.
Proof.
  intros Hf Hg st. unfold and_then. specialize (Hf st).
  destruct (f st) as [st' [[]|]]; cbn [fst] in *; [rewrite Hg|]; exact Hf.
Qed.

Lemma obscure_headers_calls
      {E : NetURL} {O S : Type} `{!Obscurer O} `{!Store S} (st : pstate O S) :
  calls_of (fst (obscure_headers st)) = calls_of st.
Proof.
  unfold obscure_headers.
  repeat (apply and_then_calls; [intros; apply obscure_or_500_calls|]; intros).
  apply obscure_or_500_calls.
Qed.

Lemma remove_on_404_calls
      {O S : Type} `{!Store S} (r : Request) (st : pstate O S) :
  calls_of (fst (remove_on_404 r st)) = calls_of st.
Proof.
  unfold remove_on_404. destruct (decide _); [|reflexivity].
  destruct (Remove _ _) as [[s' err]|]; cbn [fst]; [|reflexivity].
  rewrite on_error_calls. reflexivity.
Qed.

Lemma deferred_Do_calls (rw : responseWriter) :
  calls (rw_ResponseWriter (deferred_Do rw))
  = (calls (rw_ResponseWriter rw) ++ flushed (status rw) (body rw))%list.
Proof.
  unfold deferred_Do, Do, flushed.
  destruct (decide (status rw = 0)); destruct (decide (body rw = ""));
    unfold W_Write, W_WriteHeader; cbn [write_error];
    try (destruct (write_error (rw_ResponseWriter rw)));
    cbn [rw_ResponseWriter calls http_Error rw_with_header with_header WriteHeader Write fst
         rw_Header header];
    rewrite <- ?app_assoc, ?app_nil_r; reflexivity.
Qed.

(** X11. Whatever the wrapped handler, the store and the obscurer do,
    [ServeHTTP] passes the transport's writer at most one status write
    and after it at most one body write, both at the very end: nothing
    is sent while the wrapped handler runs or the headers are
    processed, and nothing after a body write that failed. *)
Theorem ServeHTTP_sends_once_at_the_end
        {E : NetURL} {O S : Type} `{!Obscurer O} `{!Store S}
        (h : handler O S) (w : ResponseWriter) (r : Request) :
  exists s b, calls (out_w (ServeHTTP h w r)) = (calls w ++ flushed s b)%list.
Proof.
  unfold ServeHTTP. destruct (Get _ _) as [found|].
  - match goal with
    | |- context [and_then ?f ?g ?st0] =>
      pose proof (and_then_calls f g (remove_on_404_calls _) obscure_headers_calls st0) as Hc;
      destruct (and_then f g st0) as [st res]
    end.
    cbn [fst] in Hc. unfold calls_of in Hc. cbn [st_rw] in Hc.
    rewrite serve_wrapped_sends_nothing in Hc. cbn [new_responseWriter rw_ResponseWriter] in Hc.
    exists (status (st_rw st)), (body (st_rw st)).
    cbn [out_w]. rewrite deferred_Do_calls, Hc. reflexivity.
  - exists 0, "". cbn [out_w]. unfold flushed. cbn. symmetry. apply app_nil_r.
Qed.

(** ** The captured body and status *)

Lemma serve_wrapped_captures (script : list rwcall) (rw : responseWriter) :
  body (fold_left rw_call script rw) = captured_body script (body rw)
  /\ status (fold_left rw_call script rw) = captured_status script (status rw).
Proof.
  revert rw. induction script as [|c script IH]; intros rw; [split; reflexivity|].
  cbn [fold_left captured_body captured_status].
  destruct (IH (rw_call rw c)) as [-> ->]. destruct c; split; reflexivity.
Qed.

Lemma captured_body_no_write (script : list rwcall) (b0 : string) :
  forallb (fun c => negb (is_CallWrite c)) script = true ->
  captured_body script b0 = b0.
Proof.
  revert b0. induction script as [|c script IH]; intros b0 H; [reflexivity|].
  cbn [forallb] in H. apply andb_prop in H as [Hc Hrest].
  unfold captured_body in *. cbn [fold_left]. rewrite (IH _ Hrest).
  destruct c; [reflexivity | reflexivity | discriminate].
Qed.



(* ===================================================================== *)
(** * More on the handler: pass-through and failures                      *)
(* ===================================================================== *)

Lemma Header_Get_Set_other (h : Header) (key key' value : string) :
  key' <> key -> Header_Get (Header_Set h key value) key' = Header_Get h key'.
Proof. intros Hne. unfold Header_Get, Header_Set. rewrite lookup_insert_ne by congruence. reflexivity. Qed.

Lemma Header_Get_Set_same (h : Header) (key value : string) :
  Header_Get (Header_Set h key value) key = value.
Proof. unfold Header_Get, Header_Set. rewrite lookup_insert_eq. reflexivity. Qed.

Lemma http_Error_other_headers (rw : responseWriter) (msg : string) (code : Z) (key : string) :
  key <> "Content-Type" -> key <> "X-Content-Type-Options" ->
  Header_Get (rw_Header (http_Error rw msg code)) key = Header_Get (rw_Header rw) key.
Proof.
  intros H1 H2. unfold http_Error, rw_Header.
  cbn [Write WriteHeader rw_with_header with_header fst rw_ResponseWriter header].
  rewrite !Header_Get_Set_other by assumption. reflexivity.
Qed.

Lemma obscureHeader_other_headers
      {E : NetURL} {O S : Type} `{!Obscurer O} `{!Store S}
      (st st' : pstate O S) (key key' : string) (parse : headerParser) (res : outcome error) :
  obscureHeader st key parse = (st', res) ->
  key' <> key ->
  Header_Get (rw_Header (st_rw st')) key' = Header_Get (rw_Header (st_rw st)) key'.
Proof.
  unfold obscureHeader. intros H Hne. revert H.
  destruct (decide _); [intros [= <- _]; reflexivity|].
  destruct (url_Parse _) as [err | url]; [intros [= <- _]; reflexivity|].
  destruct (Obscure _ _) as [o' obscured].
  destruct (Put _ _ _) as [[s' err]|]; intros [= <- _];
    destruct obscured; cbn [st_rw]; try reflexivity;
    unfold rw_Header, rw_with_header; cbn [rw_ResponseWriter with_header header];
    apply Header_Get_Set_other, Hne.
Qed.

(** X13. A request whose response has none of the three headers and a status
    other than 404 passes through: the wrapped handler is given the
    request, with the mapped original as its URL when the store knows the
    requested one, the store and the obscurer are left as they were, and
    the transport is sent the last status and the last body the wrapped
    handler wrote. *)
Theorem ServeHTTP_passes_through
        {E : NetURL} {O S : Type} `{!Obscurer O} `{!Store S}
        (h : handler O S) (w : ResponseWriter) (r : Request) (found : option URL) :
  Get (handler_store h) (Some (r_URL r)) = Returns found ->
  let script := handler_handler h (deobscured found r) in
  let rw := serve_wrapped (handler_handler h) (new_responseWriter w) (deobscured found r) in
  status rw <> 404 ->
  Header_Get (rw_Header rw) "Location" = "" ->
  Header_Get (rw_Header rw) "Content-Location" = "" ->
  Header_Get (rw_Header rw) "Link" = "" ->
  let res := ServeHTTP h w r in
  out_request res = deobscured found r
  /\ out_store res = handler_store h
  /\ out_obscurer res = handler_obscurer h
  /\ out_panicked res = false
  /\ calls (out_w res)
     = (calls w ++ flushed (captured_status script 0) (captured_body script ""))%list.
Proof.
  intros HGet script rw Hstatus HL HC HK res. subst res.
  unfold ServeHTTP. rewrite HGet. fold (deobscured found r). fold rw.
  unfold and_then, remove_on_404. cbn [st_rw].
  destruct (decide (status rw = 404)) as [Heq|_]; [contradiction|].
  rewrite obscure_headers_skip by assumption.
  cbn [out_request out_store out_obscurer out_panicked out_w st_rw st_store st_obscurer].
  repeat (split; [reflexivity|]).
  rewrite deferred_Do_calls. unfold rw at 1. rewrite serve_wrapped_sends_nothing.
  unfold rw, serve_wrapped. fold script.
  destruct (serve_wrapped_captures script (new_responseWriter w)) as [-> ->].
  reflexivity.
Qed.

Lemma ServeHTTP_passes_through_witness :
  let u := URL_of_path "/this/is/the/way" in
  let res := serve_default (loaded u) (mux [CallWriteHeader 200; CallWrite "made it"])
               {| Method := "GET"; r_URL := obscure u |} in
  out_request res = {| Method := "GET"; r_URL := u |}
  /\ out_store res = loaded u
  /\ out_obscurer res = Default
  /\ out_panicked res = false
  /\ calls (out_w res) = [WroteHeader 200; Wrote "made it"].
Proof.
  intros u.
  assert (HGet : Get (loaded u) (Some (obscure u)) = Returns (Some u))
    by (vm_compute; reflexivity).
  pose proof (@ServeHTTP_passes_through plain_NetURL _ _ _ _
                (NewHandler Default (loaded u) (mux [CallWriteHeader 200; CallWrite "made it"]))
                new_ResponseWriter {| Method := "GET"; r_URL := obscure u |} (Some u) HGet
                ltac:(vm_compute; discriminate)
                ltac:(vm_compute; reflexivity) ltac:(vm_compute; reflexivity)
                ltac:(vm_compute; reflexivity)) as H.
  exact H.
Defined.

(** X14. When the response is a 404 and the store's [Remove] returns an
    error, the client is sent status 500 and the removal message, in
    place of whatever the wrapped handler wrote. *)
Theorem removal_failure_is_answered_with_500
        {E : NetURL} {O S : Type} `{!Obscurer O} `{!Store S}
        (h : handler O S) (w : ResponseWriter) (r : Request)
        (found : option URL) (s' : S) (e : string) :
  Get (handler_store h) (Some (r_URL r)) = Returns found ->
  let rw := serve_wrapped (handler_handler h) (new_responseWriter w) (deobscured found r) in
  status rw = 404 ->
  Remove (handler_store h) (Some (r_URL (deobscured found r))) = Returns (s', Some e) ->
  Header_Get (rw_Header rw) "Location" = "" ->
  Header_Get (rw_Header rw) "Content-Location" = "" ->
  Header_Get (rw_Header rw) "Link" = "" ->
  let res := ServeHTTP h w r in
  calls (out_w res)
  = (calls w ++ [WroteHeader 500; Wrote (ErrFailedRemoval +:+ String newline "")])%list
  /\ out_store res = s'
  /\ out_panicked res = false.
Proof.
  intros HGet rw H404 HRemove HL HC HK res. subst res.
  unfold ServeHTTP. rewrite HGet. fold (deobscured found r). fold rw.
  unfold and_then, remove_on_404. cbn [st_rw st_store].
  destruct (decide (status rw = 404)) as [_|Hne]; [|contradiction].
  rewrite HRemove. cbn [on_error st_rw st_obscurer st_store].
  rewrite obscure_headers_skip
    by (cbn [st_rw]; rewrite http_Error_other_headers by discriminate; assumption).
  cbn [out_store out_panicked out_w st_rw st_store].
  split; [|split; reflexivity].
  rewrite deferred_Do_calls, http_Error_calls.
  unfold rw at 1. rewrite serve_wrapped_sends_nothing. reflexivity.
Qed.

Lemma removal_failure_is_answered_with_500_witness :
  let store0 := {| mock_Get := None; mock_Put := None; mock_Remove := Some "whoa" |} in
  let res := @ServeHTTP plain_NetURL _ _ _ _ (NewHandler Default store0 no_routes)
               new_ResponseWriter (GET "/this/is/not/the/way") in
  calls (out_w res) = [WroteHeader 500; Wrote (ErrFailedRemoval +:+ String newline "")]
  /\ out_store res = store0
  /\ out_panicked res = false.
Proof.
  intros store0.
  exact (@removal_failure_is_answered_with_500 plain_NetURL _ _ _ _
           (NewHandler Default store0 no_routes) new_ResponseWriter
           (GET "/this/is/not/the/way") None store0 "whoa"
           eq_refl eq_refl eq_refl eq_refl eq_refl eq_refl).
Defined.

Lemma obscure_or_500_skip_after
      {E : NetURL} {O S : Type} `{!Obscurer O} `{!Store S}
      (st : pstate O S) (e : error) (msg0 key : string) (parse : headerParser) (msg : string) :
  key <> "Content-Type" -> key <> "X-Content-Type-Options" ->
  Header_Get (rw_Header (st_rw st)) key = "" ->
  obscure_or_500 key parse msg (on_error e msg0 st) = (on_error e msg0 st, Returns tt).
Proof.
  intros H1 H2 Hget. apply obscure_or_500_skip.
  destruct e; cbn [on_error st_rw]; [|exact Hget].
  rewrite http_Error_other_headers by assumption. exact Hget.
Qed.

(** X15. When [obscureHeader] fails for one of the three headers, because
    the URL does not parse or because the store's [Put] returns an
    error, and the other two headers are absent or empty, the response
    captured for the client is status 500 with that header's message. *)
Theorem single_failure_is_answered_with_its_message
        {E : NetURL} {O S : Type} `{!Obscurer O} `{!Store S}
        (st st' : pstate O S) (key : string) (parse : headerParser) (msg e : string) :
  In (key, parse, msg) rewrite_targets ->
  obscureHeader st key parse = (st', Returns (Some e)) ->
  (forall key' parse' msg', In (key', parse', msg') rewrite_targets -> key' <> key ->
     Header_Get (rw_Header (st_rw st)) key' = "") ->
  let final := on_error (Some e) msg st' in
  obscure_headers st = (final, Returns tt)
  /\ status (st_rw final) = 500
  /\ body (st_rw final) = msg +:+ String newline ""
  /\ st_store final = st_store st'.
Proof.
  intros Hin Hfail Hothers final.
  split; [|repeat split].
  assert (HL : "Location" <> key -> Header_Get (rw_Header (st_rw st)) "Location" = "")
    by (intros; eapply Hothers; [left; reflexivity | assumption]).
  assert (HC : "Content-Location" <> key ->
               Header_Get (rw_Header (st_rw st)) "Content-Location" = "")
    by (intros; eapply Hothers; [right; left; reflexivity | assumption]).
  assert (HK : "Link" <> key -> Header_Get (rw_Header (st_rw st)) "Link" = "")
    by (intros; eapply Hothers; [right; right; left; reflexivity | assumption]).
  unfold obscure_headers, and_then.
  destruct Hin as [Heq | [Heq | [Heq | []]]]; injection Heq as <- <- <-.
  - rewrite (obscure_or_500_on_error _ _ _ _ _ _ Hfail).
    rewrite !obscure_or_500_skip_after; try discriminate; try reflexivity.
    + rewrite (obscureHeader_other_headers _ _ _ _ _ _ Hfail) by discriminate.
      apply HK. discriminate.
    + rewrite (obscureHeader_other_headers _ _ _ _ _ _ Hfail) by discriminate.
      apply HC. discriminate.
  - rewrite (obscure_or_500_skip st) by (apply HL; discriminate).
    rewrite (obscure_or_500_on_error _ _ _ _ _ _ Hfail).
    rewrite obscure_or_500_skip_after; try discriminate; try reflexivity.
    rewrite (obscureHeader_other_headers _ _ _ _ _ _ Hfail) by discriminate.
    apply HK. discriminate.
  - rewrite (obscure_or_500_skip st) by (apply HL; discriminate).
    rewrite (obscure_or_500_skip st) by (apply HC; discriminate).
    rewrite (obscure_or_500_on_error _ _ _ _ _ _ Hfail). reflexivity.
Qed.

Lemma single_failure_is_answered_with_its_message_witness :
  let final := on_error (Some "whoa") ErrLocationHeaderFailure put_error_after_Location in
  @obscure_headers plain_NetURL _ _ _ _ put_error_state = (final, Returns tt)
  /\ status (st_rw final) = 500
  /\ body (st_rw final) = ErrLocationHeaderFailure +:+ String newline ""
  /\ st_store final = st_store put_error_after_Location.
Proof.
  assert (Hfail : @obscureHeader plain_NetURL _ _ _ _ put_error_state
                    "Location" defaultParseHeader
                  = (put_error_after_Location, Returns (Some "whoa")))
    by (vm_compute; reflexivity).
  refine (@single_failure_is_answered_with_its_message plain_NetURL _ _ _ _
            put_error_state put_error_after_Location "Location" defaultParseHeader
            ErrLocationHeaderFailure "whoa" _ Hfail _).
  - left. reflexivity.
  - intros key' parse' msg' [Heq | [Heq | [Heq | []]]] Hne; injection Heq as <- <- <-;
      [contradiction | vm_compute; reflexivity | vm_compute; reflexivity].
Defined.

(* ===================================================================== *)
(** * More on the handler: a rewritten header resolves                    *)
(* ===================================================================== *)

Lemma HasPrefix_refl (s : string) : GoString.HasPrefix s s = true.
Proof. induction s as [|c s IH]; [reflexivity|]. cbn. rewrite Ascii.eqb_refl. exact IH. Qed.

Lemma replace_from_skips (old new t : string) :
  GoString.replace_from (String.length t) old new t = "".
Proof. induction t as [|c t IH]; [reflexivity|]. cbn. exact IH. Qed.

Lemma string_app_empty_r (s : string) : s +:+ "" = s.
Proof.
  induction s as [|c s IH]; [reflexivity|].
  change (String c s +:+ "") with (String c (s +:+ "")). now rewrite IH.
Qed.

(** [strings.ReplaceAll(s, s, new)] is [new] for a non-empty [s]. *)
Lemma ReplaceAll_self (s new : string) :
  s <> "" -> GoString.ReplaceAll s s new = new.
Proof.
  destruct s as [|c s]; [congruence|]. intros _.
  unfold GoString.ReplaceAll. cbn [GoString.replace_from].
  rewrite HasPrefix_refl.
  replace (String.length (String c s) - 1)%nat with (String.length s) by (cbn; lia).
  rewrite replace_from_skips. apply string_app_empty_r.
Qed.

(** X16. A [Location] or [Content-Location] value that parses, and that
    [String] renders back as it was, is replaced by the obscured URL as
    a whole, no error is returned, and the obscured URL is in the store
    afterwards: a later [Get] for it finds the URL of the header, or the
    original put earlier under the same obscured path. *)
Theorem rewritten_header_resolves
        {E : NetURL} (st : pstate md5Obscurer memoryStore) (key value : string) (url : URL) :
  md5Obscurer_reachable (st_obscurer st) ->
  Header_Get (rw_Header (st_rw st)) key = value ->
  value <> "" ->
  url_Parse value = inr url ->
  URL_String url = value ->
  exists st',
    obscureHeader st key defaultParseHeader = (st', Returns None)
    /\ Header_Get (rw_Header (st_rw st')) key = URL_String (obscure url)
    /\ memoryStore_Get (st_store st') (obscure url)
       = Some (default url (memoryStore_Get (st_store st) (obscure url)))
    /\ md5Obscurer_reachable (st_obscurer st').
Proof.
  intros Hr Hget Hne Hparse Hstring.
  unfold obscureHeader, defaultParseHeader. rewrite Hget, Hparse.
  destruct (decide (value = "")) as [Heq|_]; [contradiction|].
  cbn [Obscure md5Obscurer_Obscurer].
  pose proof (md5Obscurer_Obscure_reachable (st_obscurer st) url Hr) as Hsame.
  pose proof (reach_Obscure (st_obscurer st) url Hr) as Hr'.
  destruct (md5Obscurer_Obscure (st_obscurer st) url) as [o' ob].
  cbn [fst snd] in Hsame, Hr'. subst ob.
  cbn [Put memoryStore_Store].
  pose proof (memoryStore_Put_nil_error (st_store st) (obscure url) url) as Hnil.
  pose proof (memoryStore_Get_Put (st_store st) (obscure url) url) as HGP.
  destruct (memoryStore_Put (st_store st) (obscure url) url) as [s' err].
  cbn [fst snd] in Hnil, HGP. subst err.
  eexists. split; [reflexivity|]. cbn [st_rw st_store st_obscurer].
  split; [|split; assumption].
  unfold rw_Header, rw_with_header. cbn [rw_ResponseWriter with_header header].
  rewrite Header_Get_Set_same, Hstring. apply ReplaceAll_self, Hne.
Qed.

Lemma rewritten_header_resolves_witness :
  exists st',
    @obscureHeader plain_NetURL _ _ _ _ location_state "Location" defaultParseHeader
    = (st', Returns None)
    /\ Header_Get (rw_Header (st_rw st')) "Location"
       = Path (obscure (URL_of_path "/hey/der"))
    /\ memoryStore_Get (st_store st') (obscure (URL_of_path "/hey/der"))
       = Some (URL_of_path "/hey/der").
Proof.
  destruct (@rewritten_header_resolves plain_NetURL location_state "Location" "/hey/der"
              (URL_of_path "/hey/der") reach_Default eq_refl ltac:(discriminate)
              eq_refl eq_refl) as (st' & H1 & H2 & H3 & _).
  exists st'. split; [exact H1|]. split; [exact H2|exact H3].
Defined.

(* ===================================================================== *)
(** * More on the middleware and the first handler                        *)
(* ===================================================================== *)

Lemma middleware_obscureHeader_keeps
      {E : NetURL} {O S : Type} `{!Obscurer O} `{!Store S}
      (st st' : Middleware.mstate O S) (key : string) (parse : headerParser)
      (res : outcome error) :
  Middleware.obscureHeader st key parse = (st', res) ->
  calls (AutoFlush.rw_ResponseWriter (Middleware.m_rw st'))
  = calls (AutoFlush.rw_ResponseWriter (Middleware.m_rw st))
  /\ AutoFlush.status (Middleware.m_rw st') = AutoFlush.status (Middleware.m_rw st).
Proof.
  unfold Middleware.obscureHeader.
  destruct (decide _); [intros [= <- _]; split; reflexivity|].
  destruct (url_Parse _) as [err | url]; [intros [= <- _]; split; reflexivity|].
  destruct (Obscure _ _) as [o' obscured].
  destruct (Put _ _ _) as [[s' err]|]; intros [= <- _];
    destruct obscured; split; reflexivity.
Qed.

(** X17. In the middleware a failure is not captured: [http.Error] is given
    the transport's writer, which gets status 500 and the message at
    once, ahead of the status the wrapped handler set. *)
Theorem middleware_failure_is_written_at_once
        {E : NetURL} {O S : Type} `{!Obscurer O} `{!Store S}
        (st st' : Middleware.mstate O S) (key : string) (parse : headerParser)
        (msg e : string) :
  Middleware.obscureHeader st key parse = (st', Returns (Some e)) ->
  let after := fst (Middleware.obscure_or_500 key parse msg st) in
  calls (AutoFlush.rw_ResponseWriter (Middleware.m_rw after))
  = (calls (AutoFlush.rw_ResponseWriter (Middleware.m_rw st))
     ++ [WroteHeader 500; Wrote (msg +:+ String newline "")])%list
  /\ AutoFlush.status (Middleware.m_rw after) = AutoFlush.status (Middleware.m_rw st).
Proof.
  intros H after. subst after. unfold Middleware.obscure_or_500. rewrite H.
  destruct (middleware_obscureHeader_keeps _ _ _ _ _ H) as [Hc Hs].
  cbn [fst Middleware.m_rw Middleware.m_with_w AutoFlush.rw_ResponseWriter AutoFlush.status].
  split; [|exact Hs].
  unfold Middleware.http_Error_w, W_Write, W_WriteHeader.
  cbn [fst calls with_header]. rewrite Hc, <- app_assoc. reflexivity.
Qed.

Lemma middleware_obscure_or_500_status
      {E : NetURL} {O S : Type} `{!Obscurer O} `{!Store S}
      (st : Middleware.mstate O S) (key : string) (parse : headerParser) (msg : string) :
  AutoFlush.status (Middleware.m_rw (fst (Middleware.obscure_or_500 key parse msg st)))
  = AutoFlush.status (Middleware.m_rw st).
Proof.
  unfold Middleware.obscure_or_500.
  destruct (Middleware.obscureHeader st key parse) as [st' res] eqn:H.
  destruct (middleware_obscureHeader_keeps _ _ _ _ _ H) as [_ Hs].
  destruct res as [[e|]|]; exact Hs.
Qed.

Lemma middleware_and_then_status
      {O S : Type} (f g : Middleware.mstate O S -> Middleware.mstate O S * outcome unit) :
  (forall st, AutoFlush.status (Middleware.m_rw (fst (f st)))
              = AutoFlush.status (Middleware.m_rw st)) ->
  (forall st, AutoFlush.status (Middleware.m_rw (fst (g st)))
              = AutoFlush.status (Middleware.m_rw st)) ->
  forall st, AutoFlush.status (Middleware.m_rw (fst (Middleware.and_then f g st)))
             = AutoFlush.status (Middleware.m_rw st).
Proof.
  intros Hf Hg st. unfold Middleware.and_then. specialize (Hf st).
  destruct (f st) as [st' [[]|]]; cbn [fst] in *; [rewrite Hg|]; exact Hf.
Qed.

Lemma autoflush_off_status (script : list rwcall) (rw : AutoFlush.responseWriter) :
  AutoFlush.autoFlush rw = false ->
  AutoFlush.status (fold_left Middleware.rw_call script rw)
  = captured_status script (AutoFlush.status rw).
Proof.
  revert rw. induction script as [|c script IH]; intros rw Hoff; [reflexivity|].
  cbn [fold_left captured_status]. rewrite IH.
  - destruct c; cbn [Middleware.rw_call]; try reflexivity.
    unfold AutoFlush.WriteHeader. cbn [AutoFlush.autoFlush]. rewrite Hoff. reflexivity.
  - destruct c; cbn [Middleware.rw_call]; try exact Hoff.
    unfold AutoFlush.WriteHeader. cbn [AutoFlush.autoFlush]. rewrite Hoff. reflexivity.
Qed.

(** X18. The last call the middleware makes on the transport's writer is
    always the status write of the deferred [Flush], with the status the
    wrapped handler set last, or 0 if it set none; this holds whether
    header processing succeeded, failed or panicked. *)
Theorem middleware_ends_with_the_captured_status
        {E : NetURL} {O S : Type} `{!Obscurer O} `{!Store S}
        (m : Middleware.middleware O S) (w : ResponseWriter) (r : Request) :
  exists before,
    calls (fst (fst (fst (Middleware.ServeHTTP m w r))))
    = (before ++ [WroteHeader (captured_status (Middleware.next m r) 0)])%list.
Proof.
  unfold Middleware.ServeHTTP.
  match goal with
  | |- context [Middleware.and_then ?f ?g ?st0] =>
    pose proof (middleware_and_then_status f g
                  (fun st => middleware_obscure_or_500_status st _ _ _)
                  (middleware_and_then_status _ _
                     (fun st => middleware_obscure_or_500_status st _ _ _)
                     (fun st => middleware_obscure_or_500_status st _ _ _)) st0) as Hs;
    destruct (Middleware.and_then f g st0) as [st res]
  end.
  cbn [fst Middleware.m_rw] in Hs.
  rewrite autoflush_off_status in Hs by reflexivity. cbn [AutoFlush.status] in Hs.
  exists (calls (AutoFlush.rw_ResponseWriter (Middleware.m_rw st))).
  cbn [fst AutoFlush.Flush AutoFlush.rw_ResponseWriter W_WriteHeader calls].
  rewrite Hs. reflexivity.
Qed.

Lemma autoflush_on_forwards (script : list rwcall) (rw : AutoFlush.responseWriter) :
  AutoFlush.autoFlush rw = true ->
  let rw' := fold_left Middleware.rw_call script rw in
  status_writes (AutoFlush.rw_ResponseWriter rw')
  = (status_writes (AutoFlush.rw_ResponseWriter rw) ++ header_codes script)%list
  /\ AutoFlush.status rw' = captured_status script (AutoFlush.status rw).
Proof.
  revert rw. induction script as [|c script IH]; intros rw Hon.
  - cbn. rewrite app_nil_r. split; reflexivity.
  - cbn [fold_left captured_status].
    assert (Hon' : AutoFlush.autoFlush (Middleware.rw_call rw c) = true).
    { destruct c; cbn [Middleware.rw_call]; try exact Hon.
      unfold AutoFlush.WriteHeader. cbn [AutoFlush.autoFlush]. rewrite Hon. reflexivity. }
    destruct (IH _ Hon') as [IH1 IH2]. rewrite IH1, IH2. clear IH IH1 IH2.
    destruct c as [f | code | data]; cbn [Middleware.rw_call].
    + split; reflexivity.
    + unfold AutoFlush.WriteHeader. cbn [AutoFlush.autoFlush]. rewrite Hon.
      unfold header_codes, status_writes. cbn. rewrite omap_app, <- app_assoc.
      split; reflexivity.
    + unfold header_codes, status_writes. cbn. rewrite omap_app. cbn.
      rewrite app_nil_r. split; reflexivity.
Qed.

(** X19. The first handler captures nothing: every status the wrapped
    handler sets is passed to the transport's writer as it is set, in
    order, and the only status the handler adds is the 500 of a failed
    removal after a 404. *)
Theorem first_handler_forwards_every_status
        {O S : Type} `{!Store S}
        (h : handler O S) (w : ResponseWriter) (r : Request) (found : option URL) :
  Get (handler_store h) (Some (r_URL r)) = Returns found ->
  let script := handler_handler h (deobscured found r) in
  let w' := fst (fst (fst (HandlerV1.ServeHTTP h w r))) in
  exists tail,
    status_writes w' = (status_writes w ++ header_codes script ++ tail)%list
    /\ (tail = [] \/ (tail = [500] /\ captured_status script 0 = 404)).
Proof.
  intros HGet script w'. subst w'. unfold HandlerV1.ServeHTTP. rewrite HGet. fold script.
  match goal with
  | |- context [fold_left Middleware.rw_call script ?rw0] =>
    destruct (autoflush_on_forwards script rw0 eq_refl) as [Hw Hs];
    set (rw := fold_left Middleware.rw_call script rw0) in *
  end.
  cbn [AutoFlush.rw_ResponseWriter AutoFlush.status] in Hw, Hs.
  destruct (decide (AutoFlush.status rw = 404)) as [H404|_].
  - destruct (Remove _ _) as [[s' [e|]]|]; cbn [fst].
    + exists [500]. split; [|right; split; [reflexivity | congruence]].
      unfold Middleware.http_Error_w, W_Write, W_WriteHeader, status_writes in *.
      cbn [fst calls with_header]. rewrite !omap_app, Hw. cbn.
      rewrite app_nil_r, <- app_assoc. reflexivity.
    + exists []. rewrite app_nil_r. auto.
    + exists []. rewrite app_nil_r. auto.
  - exists []. cbn [fst]. rewrite app_nil_r. auto.
Qed.

Lemma first_handler_forwards_every_status_witness :
  let h := NewHandler Default DefaultStore (fun _ => [CallWriteHeader 201; CallWriteHeader 204]) in
  exists tail,
    status_writes (fst (fst (fst (HandlerV1.ServeHTTP h new_ResponseWriter (GET "/x")))))
    = ([] ++ [201; 204] ++ tail)%list
    /\ (tail = [] \/ (tail = [500] /\ 204 = 404)).
Proof.
  intros h.
  exact (first_handler_forwards_every_status h new_ResponseWriter (GET "/x") None eq_refl).
Defined.

Lemma middleware_failure_is_written_at_once_witness :
  let after := fst (@Middleware.obscure_or_500 plain_NetURL _ _ _ _
                      "Location" defaultParseHeader ErrLocationHeaderFailure
                      middleware_malformed_state) in
  calls (AutoFlush.rw_ResponseWriter (Middleware.m_rw after))
  = ([] ++ [WroteHeader 500; Wrote (ErrLocationHeaderFailure +:+ String newline "")])%list
  /\ AutoFlush.status (Middleware.m_rw after) = 200.
Proof.
  assert (Hfail : @Middleware.obscureHeader plain_NetURL _ _ _ _ middleware_malformed_state
                    "Location" defaultParseHeader
                  = (middleware_malformed_state, Returns (Some ctl_error)))
    by (vm_compute; reflexivity).
  exact (@middleware_failure_is_written_at_once plain_NetURL _ _ _ _
           middleware_malformed_state middleware_malformed_state
           "Location" defaultParseHeader ErrLocationHeaderFailure ctl_error Hfail).
Defined.

(* ===================================================================== *)
(** * More on the handler: a nil obscured URL                             *)
(* ===================================================================== *)

(** X20. [obscureHeader] guards the rewriting of the header against a nil
    result of the obscurer, but not the [Put] that follows: with the
    in-memory store, which reads the path of the obscured URL, the call
    panics. The header, the captured response and the store are as they
    were. *)
Theorem nil_obscured_URL_panics_in_Put
        {E : NetURL} {O : Type} `{!Obscurer O}
        (st : pstate O memoryStore) (key : string) (parse : headerParser) (msg : string)
        (url : URL) (o' : O) :
  Header_Get (rw_Header (st_rw st)) key <> "" ->
  url_Parse (parse (Header_Get (rw_Header (st_rw st)) key)) = inr url ->
  Obscure (st_obscurer st) url = (o', None) ->
  let st' := {| st_rw := st_rw st; st_obscurer := o'; st_store := st_store st |} in
  obscureHeader st key parse = (st', Panics)
  /\ obscure_or_500 key parse msg st = (st', Panics).
Proof.
  intros Hne Hparse Hnil st'.
  assert (H : obscureHeader st key parse = (st', Panics)).
  { unfold obscureHeader. rewrite Hparse, Hnil.
    destruct (decide _) as [Heq|_]; [contradiction|]. reflexivity. }
  split; [exact H|]. unfold obscure_or_500. rewrite H. reflexivity.
Qed.

Lemma nil_obscured_URL_panics_in_Put_witness :
  @obscureHeader plain_NetURL _ _ _ _ nil_obscured_state "Location" defaultParseHeader
  = (nil_obscured_state, Panics)
  /\ @obscure_or_500 plain_NetURL _ _ _ _ "Location" defaultParseHeader
       ErrLocationHeaderFailure nil_obscured_state
     = (nil_obscured_state, Panics).
Proof.
  exact (@nil_obscured_URL_panics_in_Put plain_NetURL _ _ nil_obscured_state
           "Location" defaultParseHeader ErrLocationHeaderFailure
           (URL_of_path "/hey/der") NilObscurer
           ltac:(vm_compute; discriminate) ltac:(vm_compute; reflexivity) eq_refl).
Defined.

(** With such an obscurer [ServeHTTP] panics, and the deferred [Do]
    still sends the status the wrapped handler set. *)
Example nil_obscurer_served :
  let route := [ OnHeader (fun h => <["Location" := ["/hey/der"]]> h); CallWriteHeader 200 ] in
  let res := @ServeHTTP plain_NetURL _ _ _ _ (NewHandler NilObscurer DefaultStore (mux route))
               new_ResponseWriter (GET "/this/is/the/way") in
  out_panicked res = true
  /\ calls (out_w res) = [WroteHeader 200]
  /\ Header_Get (header (out_w res)) "Location" = "/hey/der"
  /\ memoryStore_Size (out_store res) = 0.
Proof. evaluate. Qed.
